(** * Confluence content-service adapter: a shallow embedding

    The two client classes of the repository are embedded here:
    - [Legacy]: the Data Center client (class [ConfluenceClient] with the
      methods [verifyApiConnection], [getConfluencePages], ...,
      [removeConfluenceLabel]), which talks to [/rest/api/content];
    - [Typed]: the older client of [src/confluence-client.ts]
      ([getSpaces], [getPages], ..., [removeLabel]);
    - [Server]: the environment check and the tool dispatcher of
      [index.ts], over arbitrary tool handlers.

    The HTTP stack (axios) and the wall clock are the environment: a
    [World] answers every request and every clock reading, and each
    method is a computation that records the requests it issues and
    either returns a value or throws. *)

From Stdlib Require Import String Ascii List ZArith Bool Lia.
From Stdlib Require Import DecimalString.
Import ListNotations.

Local Open Scope string_scope.
Local Open Scope Z_scope.

(* ================================================================== *)
(** ** Strings: the pieces of the JavaScript string API the clients use *)
(* ================================================================== *)

Module Text.

(** The double-quote character that the template literals of the
    clients put around CQL operands. *)
Definition dquote : string := String "034"%char EmptyString.

(** [`"${s}"`] *)
Definition quoted (s : string) : string := dquote ++ s ++ dquote.

(** [hay.startsWith(needle)] *)
Fixpoint startsWith (needle hay : string) : bool :=
  match needle, hay with
  | EmptyString, _ => true
  | String a needle', String b hay' =>
      if Ascii.eqb a b then startsWith needle' hay' else false
  | String _ _, EmptyString => false
  end.

(** [hay.includes(needle)]: some suffix of [hay] starts with [needle]. *)
Fixpoint includes (needle hay : string) : bool :=
  if startsWith needle hay then true
  else match hay with
       | EmptyString => false
       | String _ hay' => includes needle hay'
       end.

(** [parts.join(sep)] on an array of strings. *)
Fixpoint join (sep : string) (parts : list string) : string :=
  match parts with
  | [] => EmptyString
  | [p] => p
  | p :: rest => p ++ sep ++ join sep rest
  end.

(** The specification of [includes]: an occurrence of [needle]. *)
Definition occurs_in (needle hay : string) : Prop :=
  exists before after, hay = before ++ needle ++ after.

End Text.

(* ================================================================== *)
(** ** JavaScript values

    Response payloads are typed [any] in the clients, so they are
    embedded as untyped JSON-like values.  Numbers are the integers
    (versions, limits, offsets, status codes): [Num n] is the
    JavaScript number whose value is the integer [n], and the one
    arithmetic operation of the clients, [version + 1], rounds as
    double-precision addition does ([increment]). *)
(* ================================================================== *)

Module JS.

#[warnings="-register-all"]
Inductive value : Type :=
| Undefined
| Null
| Bool (b : bool)
| Num (n : Z)
| Str (s : string)
| Arr (items : list value)
| Obj (fields : list (string * value)).

(** [v === undefined || v === null] *)
Definition nullish (v : value) : bool :=
  match v with
  | Undefined | Null => true
  | _ => false
  end.

(** ToBoolean: what [if (v)], [!v] and [v || w] test. *)
Definition truthy (v : value) : bool :=
  match v with
  | Undefined | Null => false
  | Bool b => b
  | Num n => negb (n =? 0)
  | Str s => negb (String.eqb s EmptyString)
  | Arr _ | Obj _ => true
  end.

(** [a || b] on values ([b] is given already evaluated; where the
    right operand has an effect the caller sequences it itself). *)
Definition or (a b : value) : value := if truthy a then a else b.

(** Own-property lookup in an object literal. *)
Fixpoint lookup (k : string) (fields : list (string * value)) : value :=
  match fields with
  | [] => Undefined
  | (k', v) :: rest => if String.eqb k k' then v else lookup k rest
  end.

(** [v.k] for the property names the clients read ([id], [title],
    [body], [storage], [value], [message], [results], ...): none of
    them is a built-in property of a string, number, boolean or
    array, so only objects can answer with something else than
    [undefined].  [None] is the [TypeError] of reading a property of
    [undefined] or [null]. *)
Definition member (v : value) (k : string) : option value :=
  match v with
  | Undefined | Null => None
  | Obj fields => Some (lookup k fields)
  | _ => Some Undefined
  end.

(** [v?.k] *)
Definition opt_member (v : value) (k : string) : value :=
  match member v k with
  | Some x => x
  | None => Undefined
  end.

(** The keys of an object literal, in the order written. *)
Definition keys (v : value) : list string :=
  match v with
  | Obj fields => map fst fields
  | _ => []
  end.

(** The integer nearest to [z] among the double-precision numbers, a
    tie going to the even significand: integers below 2^53 in
    magnitude are kept, larger ones keep their 53 leading bits. *)
Definition to_double (z : Z) : Z :=
  let a := Z.abs z in
  if a <? 2 ^ 53 then z
  else
    let e := Z.log2 a - 52 in
    let q := Z.shiftr a e in
    let r := a - Z.shiftl q e in
    let half := Z.shiftl 1 (e - 1) in
    let q' := if r <? half then q
              else if half <? r then q + 1
              else if Z.even q then q else q + 1 in
    Z.sgn z * Z.shiftl q' e.

(** [n + 1] on a number [n] that is an integer: the exact sum, rounded
    to a double. *)
Definition increment (n : Z) : Z := to_double (n + 1).

(** The decimal digits of a natural number. *)
Definition digits (a : Z) : string := NilZero.string_of_int (Z.to_int a).

Fixpoint zeros (n : nat) : string :=
  match n with
  | O => EmptyString
  | S n' => String "0" (zeros n')
  end.

(** The shortest significand of the number [a], which has [len]
    digits: the least number [k] of digits, tried from [k] upwards,
    for which some multiple of [10^(len - k)] has [a] as its nearest
    double; of the two multiples around [a] that do, the nearer one
    (the even one on a tie).  The result is the significand and the
    power of ten. *)
Fixpoint shortest (fuel : nat) (k : Z) (a len : Z) : Z * Z :=
  match fuel with
  | O => (a, 0)
  | S fuel' =>
      let p := len - k in
      if p <=? 0 then (a, 0)
      else
        let unit := 10 ^ p in
        let lo := a / unit in
        let hi := lo + 1 in
        let r := a mod unit in
        let ok_lo := to_double (lo * unit) =? a in
        let ok_hi := to_double (hi * unit) =? a in
        let nearer := if 2 * r <? unit then lo
                      else if unit <? 2 * r then hi
                      else if Z.even lo then lo else hi in
        if ok_lo && ok_hi then (nearer, p)
        else if ok_lo then (lo, p)
        else if ok_hi then (hi, p)
        else shortest fuel' (k + 1) a len
  end.

(** Trailing zeros move from the significand to the power of ten. *)
Fixpoint normalise (fuel : nat) (s p : Z) : Z * Z :=
  match fuel with
  | O => (s, p)
  | S fuel' =>
      if (s =? 0) || negb (s mod 10 =? 0) then (s, p)
      else normalise fuel' (s / 10) (p + 1)
  end.

(** [String(a)] for a number [a] that is a natural number: the
    shortest digits that read back as [a], followed by zeros up to 21
    digits in all, and in exponent notation beyond. *)
Definition string_of_natural (a : Z) : string :=
  let len := Z.of_nat (String.length (digits a)) in
  let (s0, p0) := shortest 17 1 a len in
  let (s, p) := normalise (Z.to_nat len) s0 p0 in
  let d := digits s in
  let total := Z.of_nat (String.length d) + p in
  if total <=? 21 then d ++ zeros (Z.to_nat p)
  else
    match d with
    | String c EmptyString => String c EmptyString ++ "e+" ++ digits (total - 1)
    | String c rest => String c ("." ++ rest) ++ "e+" ++ digits (total - 1)
    | EmptyString => EmptyString
    end.

(** [String(n)] for a number that is an integer. *)
Definition string_of_Z (n : Z) : string :=
  if n <? 0 then "-" ++ string_of_natural (- n) else string_of_natural n.

(** [String(v)], as a template literal [`${v}`] computes it. *)
Fixpoint to_string (v : value) : string :=
  match v with
  | Undefined => "undefined"
  | Null => "null"
  | Bool true => "true"
  | Bool false => "false"
  | Num n => string_of_Z n
  | Str s => s
  | Arr items =>
      Text.join ","
        (map (fun x => if nullish x then EmptyString else to_string x) items)
  | Obj _ => "[object Object]"
  end.

End JS.

Export JS(value).

(* ================================================================== *)
(** ** The environment: HTTP transport, clock, exceptions *)
(* ================================================================== *)

Inductive Method : Type := GET | POST | PUT | DELETE.

(** One call on the axios instance: [client.get(url, {params})],
    [client.post(url, data)], [client.put(url, data)],
    [client.delete(url, {params})].  The URL is relative to the base
    URL of the instance. *)
Record Request : Type := mkRequest {
  method : Method;
  url : string;
  params : list (string * value);
  data : value
}.

(** [error.response] of an axios error. *)
Record Response : Type := mkResponse {
  status : Z;
  statusText : string;
  payload : value
}.

(** Modelled from the spec: the error kinds of [ConfluenceError], whose
    declaration ([types/index.ts]) is not among the sources; the
    clients use them as string literals. *)
Inductive ErrorCode : Type :=
| PAGE_NOT_FOUND
| INSUFFICIENT_PERMISSIONS
| EMPTY_CONTENT
| LABEL_EXISTS
| LABEL_NOT_FOUND
| SEARCH_FAILED
| UNKNOWN.

(** What a method can throw. *)
Inductive Exn : Type :=
| AxiosError (message : string) (response : option Response)
| ConfluenceError (message : string) (code : ErrorCode)
| Error (message : string)
| TypeError.

(** [error.response?.status] *)
Definition response_status (e : Exn) : option Z :=
  match e with
  | AxiosError _ (Some r) => Some (status r)
  | _ => None
  end.

(** [error.response?.data] *)
Definition response_data (e : Exn) : value :=
  match e with
  | AxiosError _ (Some r) => payload r
  | _ => JS.Undefined
  end.

Inductive Outcome : Type :=
| Resolved (response_data : value)
| Rejected (error : Exn).

(** The remote side and the clock.  The transport answers a request
    knowing the requests this call issued before it (the server may
    change between two round trips); [clock n] is the ISO string that
    the [n]-th [new Date().toISOString()] of the call returns. *)
Record World : Type := mkWorld {
  transport : list Request -> Request -> Outcome;
  clock : nat -> string
}.

Record St : Type := mkSt {
  sent : list Request;
  ticks : nat
}.

Definition initial : St := mkSt [] 0.

Inductive Result (A : Type) : Type :=
| Returned (a : A)
| Threw (e : Exn).
Arguments Returned {A} a.
Arguments Threw {A} e.

(** An [async] method body: reads the world, threads the log of sent
    requests and the clock position, returns or throws. *)
Definition M (A : Type) : Type := World -> St -> St * Result A.

Definition ret {A} (a : A) : M A := fun _ s => (s, Returned a).

Definition throw {A} (e : Exn) : M A := fun _ s => (s, Threw e).

Definition bind {A B} (c : M A) (k : A -> M B) : M B :=
  fun w s =>
    match c w s with
    | (s', Returned a) => k a w s'
    | (s', Threw e) => (s', Threw e)
    end.

(** [try { c } catch (error) { handler }] *)
Definition try_catch {A} (c : M A) (handler : Exn -> M A) : M A :=
  fun w s =>
    match c w s with
    | (s', Returned a) => (s', Returned a)
    | (s', Threw e) => handler e w s'
    end.

Declare Scope js_scope.
Delimit Scope js_scope with js.
Notation "x <- c ;; k" := (bind c (fun x => k))
  (at level 61, c at next level, right associativity) : js_scope.
Notation "'try' c 'catch' h" := (try_catch c h)
  (at level 62, c at level 61, h at level 9) : js_scope.
Local Open Scope js_scope.

(** [await this.client.<method>(...)], returning [response.data]. *)
Definition send (r : Request) : M value :=
  fun w s =>
    let s' := mkSt (sent s ++ [r]) (ticks s) in
    match transport w (sent s) r with
    | Resolved d => (s', Returned d)
    | Rejected e => (s', Threw e)
    end.

(** [new Date().toISOString()] *)
Definition now : M string :=
  fun w s => (mkSt (sent s) (S (ticks s)), Returned (clock w (ticks s))).

(** [v.k], throwing the [TypeError] of a nullish receiver. *)
Definition prop (v : value) (k : string) : M value :=
  match JS.member v k with
  | Some x => ret x
  | None => throw TypeError
  end.

(** The receiver of [.map(...)]: anything but an array has no [map]
    method to call. *)
Definition as_array (v : value) : M (list value) :=
  match v with
  | JS.Arr items => ret items
  | _ => throw TypeError
  end.

(** [items.map(f)] where [f] may read the clock or throw. *)
Fixpoint mapM {A B} (f : A -> M B) (items : list A) : M (list B) :=
  match items with
  | [] => ret []
  | x :: rest =>
      y <- f x ;;
      ys <- mapM f rest ;;
      ret (y :: ys)
  end.

(** Run a method from a fresh call state. *)
Definition run {A} (c : M A) (w : World) : St * Result A := c w initial.
Definition requests_of {A} (c : M A) (w : World) : list Request := sent (fst (run c w)).
Definition result_of {A} (c : M A) (w : World) : Result A := snd (run c w).

(** Default parameter values: [limit = 25], [start = 0]. *)
Definition default_to (d : Z) (arg : option Z) : Z :=
  match arg with
  | Some n => n
  | None => d
  end.

(** An optional string argument used as a condition: [if (title)],
    [parentId && {...}]; [undefined] and the empty string are falsy. *)
Definition given (arg : option string) : option string :=
  match arg with
  | Some s => if String.eqb s EmptyString then None else Some s
  | None => None
  end.

(** [message?.includes(needle)] on a payload field: [undefined] when
    the field is nullish, the string search on a string, the element
    search on an array, and a [TypeError] on anything else (no
    [includes] method to call). *)
Definition includes_call (message : value) (needle : string) : M value :=
  match message with
  | JS.Undefined | JS.Null => ret JS.Undefined
  | JS.Str s => ret (JS.Bool (Text.includes needle s))
  | JS.Arr items =>
      ret (JS.Bool (existsb (fun x => match x with
                                      | JS.Str s => String.eqb s needle
                                      | _ => false
                                      end) items))
  | _ => throw TypeError
  end.

(** [v[0]] *)
Definition first_item (v : value) : M value :=
  match v with
  | JS.Undefined | JS.Null => throw TypeError
  | JS.Arr (x :: _) => ret x
  | JS.Str (String c _) => ret (JS.Str (String c EmptyString))
  | JS.Obj fields => ret (JS.lookup "0" fields)
  | _ => ret JS.Undefined
  end.

(** The configuration object both constructors take
    ([ConfluenceConfig] / [ConfluenceAuth]). *)
Record ConfluenceConfig : Type := mkConfig {
  domain : string;
  email : string;
  apiToken : string
}.

(** What [axios.create] is given.  [basic_auth] holds the credential
    pair: the legacy client puts its base64 form into an
    [Authorization] header itself, the typed client hands it over as
    the [auth] option. *)
Record AxiosInstance : Type := mkAxios {
  instance_baseURL : string;
  instance_headers : list (string * string);
  basic_auth : string * string;
  auth_option : bool
}.

(* ================================================================== *)
(** ** The legacy (Data Center) client *)
(* ================================================================== *)

Module Legacy.

(** The private fields of the class. *)
Record ConfluenceClient : Type := mkClient {
  client : AxiosInstance;
  client_domain : string;
  baseURL : string;
  apiPath : string
}.

(** [constructor(config)] *)
Definition constructor (config : ConfluenceConfig) : ConfluenceClient :=
  let domain := domain config in
  let baseURL := "https://" ++ domain in
  let apiPath := "/rest/api" in
  {| client :=
       {| instance_baseURL := baseURL ++ apiPath;
          instance_headers :=
            [("Accept", "application/json");
             ("Content-Type", "application/json");
             ("X-Atlassian-Token", "no-check")];
          basic_auth := (email config, apiToken config);
          auth_option := false |};
     client_domain := domain;
     baseURL := baseURL;
     apiPath := apiPath |}.

(** The object literal that every page-returning method builds from
    an upstream page (the source repeats it in each method; the
    [body] field is copied by [getConfluencePages] and
    [getConfluencePage] only). *)
Definition toPage (with_body : bool) (page : value) : M value :=
  id <- prop page "id" ;;
  title <- prop page "title" ;;
  status <- prop page "status" ;;
  space <- prop page "space" ;;
  let spaceId := JS.opt_member space "id" in
  links <- prop page "_links" ;;
  version <- prop page "version" ;;
  body <- (if with_body then prop page "body" else ret JS.Undefined) ;;
  history <- prop page "history" ;;
  let accountId := JS.opt_member (JS.opt_member history "createdBy") "accountId" in
  let authorId := JS.or accountId (JS.Str "unknown") in
  history' <- prop page "history" ;;
  let createdDate := JS.opt_member history' "createdDate" in
  createdAt <- (if JS.truthy createdDate then ret createdDate
                else (iso <- now ;; ret (JS.Str iso))) ;;
  ret (JS.Obj
         (app [("id", id); ("title", title); ("status", status);
               ("spaceId", spaceId); ("_links", links); ("version", version)]
            (app (if with_body then [("body", body)] else [])
               [("authorId", authorId); ("createdAt", createdAt)]))).

Section Methods.

Variable this : ConfluenceClient.

(** The message [verifyApiConnection] ends up throwing. *)
Definition connection_error_message (error : Exn) : string :=
  let errorMessage := "Failed to connect to Confluence API" in
  match error with
  | AxiosError _ (Some response) =>
      if status response =? 401 then
        "Authentication failed: Invalid API token or email"
      else if status response =? 403 then
        "Authorization failed: Insufficient permissions"
      else if status response =? 404 then
        "API endpoint not found: Check Confluence domain"
      else if 500 <=? status response then
        "Confluence server error: API may be temporarily unavailable"
      else errorMessage
  | _ => errorMessage
  end.

Definition verifyApiConnection : M unit :=
  try (_ <- send (mkRequest GET "/space" [("limit", JS.Num 1)] JS.Undefined) ;;
       ret tt)
  catch (fun error => throw (Error (connection_error_message error))).

Definition getConfluenceSpaces (limit start : option Z) : M value :=
  let limit := default_to 25 limit in
  let start := default_to 0 start in
  data <- send (mkRequest GET "/space"
                  [("limit", JS.Num limit); ("start", JS.Num start)]
                  JS.Undefined) ;;
  results <- prop data "results" ;;
  links <- prop data "_links" ;;
  size <- prop data "size" ;;
  ret (JS.Obj [("results", results); ("_links", links); ("size", size)]).

Definition getConfluenceSpace (spaceKey : string) : M value :=
  data <- send (mkRequest GET ("/space/" ++ spaceKey) [] JS.Undefined) ;;
  id <- prop data "id" ;;
  key <- prop data "key" ;;
  name <- prop data "name" ;;
  type <- prop data "type" ;;
  status <- prop data "status" ;;
  links <- prop data "_links" ;;
  ret (JS.Obj [("id", id); ("key", key); ("name", name); ("type", type);
               ("status", status); ("_links", links)]).

(** The [cql] array of [getConfluencePages], joined. *)
Definition pages_cql (spaceKey : string) (title : option string) : string :=
  let cql := ["space = " ++ Text.quoted spaceKey; "type = " ++ Text.quoted "page"] in
  let cql := match given title with
             | Some t => app cql ["title ~ " ++ Text.quoted t]
             | None => cql
             end in
  Text.join " AND " cql.

Definition getConfluencePages (spaceKey : string) (limit start : option Z)
    (title : option string) : M value :=
  let limit := default_to 25 limit in
  let start := default_to 0 start in
  data <- send (mkRequest GET "/content/search"
                  [("cql", JS.Str (pages_cql spaceKey title));
                   ("limit", JS.Num limit);
                   ("start", JS.Num start);
                   ("expand", JS.Str "space,version,body.storage")]
                  JS.Undefined) ;;
  results <- prop data "results" ;;
  items <- as_array results ;;
  pages <- mapM (toPage true) items ;;
  links <- prop data "_links" ;;
  size <- prop data "size" ;;
  ret (JS.Obj [("results", JS.Arr pages); ("_links", links); ("size", size)]).

(** The [cql] array of [searchPageByName], joined. *)
Definition name_cql (title : string) (spaceKey : option string) : string :=
  let cql := ["title ~ " ++ Text.quoted title; "type = " ++ Text.quoted "page"] in
  let cql := match given spaceKey with
             | Some k => app cql ["space = " ++ Text.quoted k]
             | None => cql
             end in
  Text.join " AND " cql.

Definition searchPageByName (title : string) (spaceKey : option string) : M value :=
  try (data <- send (mkRequest GET "/content/search"
                       [("cql", JS.Str (name_cql title spaceKey));
                        ("limit", JS.Num 10);
                        ("expand", JS.Str "space,version")]
                       JS.Undefined) ;;
       results <- prop data "results" ;;
       items <- as_array results ;;
       pages <- mapM (toPage false) items ;;
       ret (JS.Arr pages))
  catch (fun error =>
    match error with
    | AxiosError message _ =>
        throw (ConfluenceError ("Failed to search for page: " ++ message) UNKNOWN)
    | _ => throw error
    end).

Definition getPageContent (pageId : string) : M value :=
  try (data <- send (mkRequest GET ("/content/" ++ pageId)
                       [("expand", JS.Str "body.storage")] JS.Undefined) ;;
       body <- prop data "body" ;;
       let content := JS.opt_member (JS.opt_member body "storage") "value" in
       if negb (JS.truthy content) then
         throw (ConfluenceError "Page content is empty or not accessible"
                  EMPTY_CONTENT)
       else ret content)
  catch (fun error =>
    match error with
    | AxiosError message _ =>
        if match response_status error with Some s => s =? 404 | None => false end
        then throw (ConfluenceError "Page content not found" PAGE_NOT_FOUND)
        else if match response_status error with Some s => s =? 403 | None => false end
        then throw (ConfluenceError
                      "Insufficient permissions to access page content"
                      INSUFFICIENT_PERMISSIONS)
        else throw (ConfluenceError
                      ("Failed to get page content: " ++ message) UNKNOWN)
    | _ => throw error
    end).

Definition getConfluencePage (pageId : string) : M value :=
  try (page <- send (mkRequest GET ("/content/" ++ pageId)
                       [("expand", JS.Str "space,version,body.storage")]
                       JS.Undefined) ;;
       toPage true page)
  catch (fun error =>
    match error with
    | AxiosError _ _ => throw error
    | _ => throw (Error "Failed to fetch page content")
    end).

(** The [storage] body both write methods submit. *)
Definition storage_body (content : string) : value :=
  JS.Obj [("storage",
           JS.Obj [("value", JS.Str content);
                   ("representation", JS.Str "storage")])].

Definition createConfluencePage (spaceKey title content : string)
    (parentId : option string) : M value :=
  let body :=
    JS.Obj (app [("type", JS.Str "page");
                 ("title", JS.Str title);
                 ("space", JS.Obj [("key", JS.Str spaceKey)]);
                 ("body", storage_body content)]
              match given parentId with
              | Some p => [("ancestors", JS.Arr [JS.Obj [("id", JS.Str p)]])]
              | None => []
              end) in
  page <- send (mkRequest POST "/content" [] body) ;;
  toPage false page.

(** The request body of [updateConfluencePage], given the clock
    reading taken while the literal is built. *)
Definition update_body (title content : string) (version : Z) (iso : string) : value :=
  JS.Obj [("type", JS.Str "page");
          ("title", JS.Str title);
          ("body", storage_body content);
          ("version",
           JS.Obj [("number", JS.Num (JS.increment version));
                   ("message", JS.Str ("Updated via MCP at " ++ iso))])].

Definition updateConfluencePage (pageId title content : string) (version : Z) : M value :=
  currentPage <- send (mkRequest GET ("/content/" ++ pageId) [] JS.Undefined) ;;
  iso <- now ;;
  let body := update_body title content version iso in
  page <- send (mkRequest PUT ("/content/" ++ pageId) [] body) ;;
  toPage false page.

(** The [cql] parameter of [searchConfluenceContent]. *)
Definition search_cql (query : string) : string :=
  if Text.includes "type =" query then query
  else "text ~ " ++ Text.quoted query.

(** One entry of the [results] of [searchConfluenceContent]. *)
Definition toSearchEntry (result : value) : M value :=
  id <- prop result "id" ;;
  type <- prop result "type" ;;
  status <- prop result "status" ;;
  title <- prop result "title" ;;
  space <- prop result "space" ;;
  let spaceId := JS.opt_member space "id" in
  links <- prop result "_links" ;;
  links' <- prop result "_links" ;;
  let webui := JS.or (JS.opt_member links' "webui") (JS.Str EmptyString) in
  let url := "https://" ++ client_domain this ++ "/wiki" ++ JS.to_string webui in
  version <- prop result "version" ;;
  let lastModified := JS.opt_member version "when" in
  excerpt <- prop result "excerpt" ;;
  ret (JS.Obj [("content",
                JS.Obj [("id", id); ("type", type); ("status", status);
                        ("title", title); ("spaceId", spaceId);
                        ("_links", links)]);
               ("url", JS.Str url);
               ("lastModified", lastModified);
               ("excerpt", JS.or excerpt (JS.Str EmptyString))]).

Definition searchConfluenceContent (query : string) (limit start : option Z) : M value :=
  let limit := default_to 25 limit in
  let start := default_to 0 start in
  try (data <- send (mkRequest GET "/content/search"
                       [("cql", JS.Str (search_cql query));
                        ("limit", JS.Num limit);
                        ("start", JS.Num start);
                        ("expand", JS.Str "space,version,body.view")]
                       JS.Undefined) ;;
       results <- prop data "results" ;;
       items <- as_array (JS.or results (JS.Arr [])) ;;
       entries <- mapM toSearchEntry items ;;
       links <- prop data "_links" ;;
       ret (JS.Obj [("results", JS.Arr entries);
                    ("_links",
                     JS.Obj [("next", JS.opt_member links "next");
                             ("base", JS.Str (baseURL this ++ apiPath this))])]))
  catch (fun error =>
    match error with
    | AxiosError message _ =>
        throw (ConfluenceError ("Failed to search content: " ++ message)
                 SEARCH_FAILED)
    | _ => throw error
    end).

Definition getConfluenceLabels (pageId : string) : M value :=
  data <- send (mkRequest GET ("/content/" ++ pageId ++ "/label") [] JS.Undefined) ;;
  results <- prop data "results" ;;
  links <- prop data "_links" ;;
  size <- prop data "size" ;;
  ret (JS.Obj [("results", results); ("_links", links); ("size", size)]).

Definition addConfluenceLabel (pageId label : string) : M value :=
  try (data <- send (mkRequest POST ("/content/" ++ pageId ++ "/label") []
                       (JS.Arr [JS.Obj [("prefix", JS.Str "global");
                                        ("name", JS.Str label)]])) ;;
       results <- prop data "results" ;;
       first_item results)
  catch (fun error =>
    match error with
    | AxiosError message _ =>
        if match response_status error with Some s => s =? 404 | None => false end
        then throw (ConfluenceError "Page not found" PAGE_NOT_FOUND)
        else
          duplicate <- includes_call
                         (JS.opt_member (response_data error) "message")
                         "already has the label" ;;
          if JS.truthy duplicate then
            throw (ConfluenceError
                     ("Label " ++ Text.quoted label ++ " already exists on this page")
                     LABEL_EXISTS)
          else
            throw (ConfluenceError ("Failed to add label: " ++ message) UNKNOWN)
    | _ => throw error
    end).

Definition removeConfluenceLabel (pageId label : string) : M unit :=
  try (_ <- send (mkRequest DELETE ("/content/" ++ pageId ++ "/label")
                    [("name", JS.Str label)] JS.Undefined) ;;
       ret tt)
  catch (fun error =>
    match error with
    | AxiosError message response =>
        if match response_status error with Some s => s =? 404 | None => false end
        then
          let data := response_data error in
          about_label <- includes_call (JS.opt_member data "message") "label" ;;
          if JS.truthy about_label then
            throw (ConfluenceError
                     ("Label " ++ Text.quoted label ++ " not found on page")
                     LABEL_NOT_FOUND)
          else throw (ConfluenceError "Page not found" PAGE_NOT_FOUND)
        else
          throw (ConfluenceError ("Failed to remove label: " ++ message) UNKNOWN)
    | _ => throw error
    end).

End Methods.

End Legacy.

(* ================================================================== *)
(** ** The typed-resource client ([src/confluence-client.ts]) *)
(* ================================================================== *)

Module Typed.

Record ConfluenceClient : Type := mkClient {
  client : AxiosInstance;
  client_domain : string
}.

(** [constructor(auth)] *)
Definition constructor (auth : ConfluenceConfig) : ConfluenceClient :=
  {| client :=
       {| instance_baseURL := "https://" ++ domain auth ++ "/rest/api";
          instance_headers :=
            [("Accept", "application/json");
             ("Content-Type", "application/json")];
          basic_auth := (email auth, apiToken auth);
          auth_option := true |};
     client_domain := domain auth |}.

Definition getSpaces (limit start : option Z) : M value :=
  let limit := default_to 25 limit in
  let start := default_to 0 start in
  send (mkRequest GET "/spaces"
          [("limit", JS.Num limit); ("start", JS.Num start)] JS.Undefined).

Definition getSpace (spaceId : string) : M value :=
  send (mkRequest GET ("/spaces/" ++ spaceId) [] JS.Undefined).

Definition getPages (spaceId : string) (limit start : option Z) : M value :=
  let limit := default_to 25 limit in
  let start := default_to 0 start in
  send (mkRequest GET "/pages"
          [("spaceId", JS.Str spaceId);
           ("limit", JS.Num limit);
           ("start", JS.Num start);
           ("status", JS.Str "current")] JS.Undefined).

Definition getPage (pageId : string) : M value :=
  send (mkRequest GET ("/pages/" ++ pageId) [] JS.Undefined).

Definition getPageContent (pageId : string) : M value :=
  send (mkRequest GET ("/pages/" ++ pageId ++ "/body")
          [("body_format", JS.Str "storage")] JS.Undefined).

Definition createPage (spaceId title content : string) (parentId : option string)
    : M value :=
  let body :=
    JS.Obj (app [("spaceId", JS.Str spaceId);
                 ("status", JS.Str "current");
                 ("title", JS.Str title);
                 ("body", JS.Obj [("representation", JS.Str "storage");
                                  ("value", JS.Str content)])]
              match given parentId with
              | Some p => [("parentId", JS.Str p)]
              | None => []
              end) in
  send (mkRequest POST "/pages" [] body).

Definition updatePage (pageId title content : string) (version : Z) : M value :=
  iso <- now ;;
  let body :=
    JS.Obj [("id", JS.Str pageId);
            ("status", JS.Str "current");
            ("title", JS.Str title);
            ("body", JS.Obj [("representation", JS.Str "storage");
                             ("value", JS.Str content)]);
            ("version",
             JS.Obj [("number", JS.Num (JS.increment version));
                     ("message", JS.Str ("Updated via MCP at " ++ iso))])] in
  send (mkRequest PUT ("/pages/" ++ pageId) [] body).

Definition searchContent (query : string) (limit start : option Z) : M value :=
  let limit := default_to 25 limit in
  let start := default_to 0 start in
  send (mkRequest GET "/search"
          [("cql", JS.Str query); ("limit", JS.Num limit); ("start", JS.Num start)]
          JS.Undefined).

Definition getLabels (pageId : string) : M value :=
  send (mkRequest GET ("/pages/" ++ pageId ++ "/labels") [] JS.Undefined).

Definition addLabel (pageId label : string) : M value :=
  send (mkRequest POST ("/pages/" ++ pageId ++ "/labels") []
          (JS.Obj [("name", JS.Str label)])).

Definition removeLabel (pageId label : string) : M unit :=
  _ <- send (mkRequest DELETE ("/pages/" ++ pageId ++ "/labels/" ++ label) []
               JS.Undefined) ;;
  ret tt.

End Typed.

(* ================================================================== *)
(** ** Requests and observations used in the statements *)
(* ================================================================== *)

(** A computation that sends nothing. *)
Definition silent {A} (c : M A) : Prop :=
  forall w s, sent (fst (c w s)) = sent s.

(** The one request of [verifyApiConnection]: list spaces, limit 1. *)
Definition probe : Request :=
  mkRequest GET "/space" [("limit", JS.Num 1)] JS.Undefined.

(** The one request of [getPageContent]. *)
Definition content_request (pageId : string) : Request :=
  mkRequest GET ("/content/" ++ pageId) [("expand", JS.Str "body.storage")]
    JS.Undefined.

(** [page.body?.storage?.value] of a fetched page. *)
Definition storage_value (page : value) : value :=
  JS.opt_member (JS.opt_member (JS.opt_member page "body") "storage") "value".

(** What [getPageContent] does with each answer of the transport. *)
Definition content_outcome (answer : Outcome) : Result value :=
  match answer with
  | Resolved page =>
      match JS.member page "body" with
      | None => Threw TypeError
      | Some _ =>
          if JS.truthy (storage_value page) then Returned (storage_value page)
          else Threw (ConfluenceError "Page content is empty or not accessible"
                        EMPTY_CONTENT)
      end
  | Rejected (AxiosError message response) =>
      match response with
      | Some r =>
          if status r =? 404 then
            Threw (ConfluenceError "Page content not found" PAGE_NOT_FOUND)
          else if status r =? 403 then
            Threw (ConfluenceError "Insufficient permissions to access page content"
                     INSUFFICIENT_PERMISSIONS)
          else Threw (ConfluenceError ("Failed to get page content: " ++ message)
                        UNKNOWN)
      | None => Threw (ConfluenceError ("Failed to get page content: " ++ message)
                         UNKNOWN)
      end
  | Rejected error => Threw error
  end.

(** The one request of [removeConfluenceLabel]. *)
Definition remove_request (pageId label : string) : Request :=
  mkRequest DELETE ("/content/" ++ pageId ++ "/label") [("name", JS.Str label)]
    JS.Undefined.

(** The one request of [addConfluenceLabel]. *)
Definition add_request (pageId label : string) : Request :=
  mkRequest POST ("/content/" ++ pageId ++ "/label") []
    (JS.Arr [JS.Obj [("prefix", JS.Str "global"); ("name", JS.Str label)]]).

(** [data?.message] of an error payload. *)
Definition payload_message (r : Response) : value :=
  JS.opt_member (payload r) "message".

(** A clock for the examples. *)
Definition noon : nat -> string := fun _ => "2024-01-01T12:00:00.000Z".

(** A server that rejects every request with the given status and
    error message in its payload. *)
Definition rejecting (code : Z) (text : string) : World :=
  mkWorld
    (fun _ _ =>
       Rejected (AxiosError "Request failed"
                   (Some (mkResponse code "Error"
                            (JS.Obj [("message", JS.Str text)])))))
    noon.

(** A server that answers every request with the same payload. *)
Definition answering (data : value) : World :=
  mkWorld (fun _ _ => Resolved data) noon.

(** [page.history?.createdBy?.accountId] of an upstream page. *)
Definition accountId (page : value) : value :=
  JS.opt_member (JS.opt_member (JS.opt_member page "history") "createdBy") "accountId".

(** [page.history?.createdDate] of an upstream page. *)
Definition createdDate (page : value) : value :=
  JS.opt_member (JS.opt_member page "history") "createdDate".

(** The [Page] record built from an upstream page, given the value its
    [createdAt] field received. *)
Definition page_record (with_body : bool) (page createdAt : value) : value :=
  JS.Obj
    (app [("id", JS.opt_member page "id");
          ("title", JS.opt_member page "title");
          ("status", JS.opt_member page "status");
          ("spaceId", JS.opt_member (JS.opt_member page "space") "id");
          ("_links", JS.opt_member page "_links");
          ("version", JS.opt_member page "version")]
       (app (if with_body then [("body", JS.opt_member page "body")] else [])
          [("authorId", JS.or (accountId page) (JS.Str "unknown"));
           ("createdAt", createdAt)])).

(** [page] is the [Page] record a method returned for the upstream
    page [upstream]: the creation date is the upstream one when there
    is one, and a reading of the clock otherwise. *)
Definition page_of (w : World) (with_body : bool) (upstream page : value) : Prop :=
  exists createdAt,
    page = page_record with_body upstream createdAt
    /\ (JS.truthy (createdDate upstream) = true -> createdAt = createdDate upstream)
    /\ (JS.truthy (createdDate upstream) = false ->
        exists n, createdAt = JS.Str (clock w n)).

(** No item of an upstream listing is [null] or [undefined]. *)
Definition all_present (items : list value) : Prop :=
  Forall (fun item => JS.nullish item = false) items.

(** The one request of [getConfluencePages]. *)
Definition pages_request (spaceKey : string) (limit start : option Z)
    (title : option string) : Request :=
  mkRequest GET "/content/search"
    [("cql", JS.Str (Legacy.pages_cql spaceKey title));
     ("limit", JS.Num (default_to 25 limit));
     ("start", JS.Num (default_to 0 start));
     ("expand", JS.Str "space,version,body.storage")]
    JS.Undefined.

(** A title filter is supplied: the optional argument is a string that
    [if (title)] accepts, that is a non-empty one. *)
Definition supplied (title : option string) (filter : string) : Prop :=
  title = Some filter /\ filter <> EmptyString.

(** An upstream page without history, as the searches return it. *)
Definition bare_page (id title : string) : value :=
  JS.Obj [("id", JS.Str id); ("title", JS.Str title); ("status", JS.Str "current");
          ("space", JS.Obj [("id", JS.Num 7); ("key", JS.Str "DOC")]);
          ("version", JS.Obj [("number", JS.Num 3)])].

(** The two defaulted fields of a returned [Page] record: [authorId]
    is ['unknown'] when the upstream page has no creator account id,
    [createdAt] is a reading of the clock when the upstream page has no
    creation date, and neither field is ever [undefined] or [null]. *)
Definition defaulted (w : World) (upstream page : value) : Prop :=
  (JS.truthy (accountId upstream) = false ->
     JS.opt_member page "authorId" = JS.Str "unknown")
  /\ (JS.truthy (createdDate upstream) = false ->
        exists n, JS.opt_member page "createdAt" = JS.Str (clock w n))
  /\ JS.nullish (JS.opt_member page "authorId") = false
  /\ JS.nullish (JS.opt_member page "createdAt") = false.

(** The one request of [searchPageByName]. *)
Definition name_request (title : string) (spaceKey : option string) : Request :=
  mkRequest GET "/content/search"
    [("cql", JS.Str (Legacy.name_cql title spaceKey));
     ("limit", JS.Num 10);
     ("expand", JS.Str "space,version")]
    JS.Undefined.

(** The one request of [getConfluencePage]. *)
Definition page_request (pageId : string) : Request :=
  mkRequest GET ("/content/" ++ pageId)
    [("expand", JS.Str "space,version,body.storage")] JS.Undefined.

(** The body [createConfluencePage] posts. *)
Definition create_body (spaceKey title content : string) (parentId : option string)
    : value :=
  JS.Obj (app [("type", JS.Str "page");
               ("title", JS.Str title);
               ("space", JS.Obj [("key", JS.Str spaceKey)]);
               ("body", Legacy.storage_body content)]
            match given parentId with
            | Some p => [("ancestors", JS.Arr [JS.Obj [("id", JS.Str p)]])]
            | None => []
            end).

(** The one request of [createConfluencePage]. *)
Definition create_request (spaceKey title content : string)
    (parentId : option string) : Request :=
  mkRequest POST "/content" [] (create_body spaceKey title content parentId).

(** The two requests of [updateConfluencePage]: the re-read of the
    current page, then the replacement. *)
Definition reread_request (pageId : string) : Request :=
  mkRequest GET ("/content/" ++ pageId) [] JS.Undefined.

Definition write_request (pageId title content : string) (version : Z)
    (iso : string) : Request :=
  mkRequest PUT ("/content/" ++ pageId) []
    (Legacy.update_body title content version iso).

(** A page as the server holds it, with the fields an update does not
    mention: its space and its parent. *)
Definition stored_page : value :=
  JS.Obj [("id", JS.Str "42"); ("type", JS.Str "page");
          ("title", JS.Str "Roadmap");
          ("space", JS.Obj [("key", JS.Str "DOC")]);
          ("ancestors", JS.Arr [JS.Obj [("id", JS.Str "7")]]);
          ("version", JS.Obj [("number", JS.Num 3)])].

(** A server that answers every GET with [stored_page] and every other
    request with the page at its next version. *)
Definition storing : World :=
  mkWorld
    (fun _ request =>
       match method request with
       | GET => Resolved stored_page
       | _ => Resolved (JS.Obj [("id", JS.Str "42"); ("title", JS.Str "Roadmap 2025");
                                ("version", JS.Obj [("number", JS.Num 4)])])
       end)
    noon.

(** The one request of [searchConfluenceContent]. *)
Definition search_request (query : string) (limit start : option Z) : Request :=
  mkRequest GET "/content/search"
    [("cql", JS.Str (Legacy.search_cql query));
     ("limit", JS.Num (default_to 25 limit));
     ("start", JS.Num (default_to 0 start));
     ("expand", JS.Str "space,version,body.view")]
    JS.Undefined.

(** [result._links?.webui] of an upstream result row. *)
Definition webui (row : value) : value :=
  JS.opt_member (JS.opt_member row "_links") "webui".

(** [entry] is a [SearchResult] entry for the upstream row [row], as a
    client for [domain] must build it: the URL is
    [https://{domain}/wiki{webui}] (with nothing after [/wiki] when the
    row has no [webui] link); the excerpt is the upstream excerpt when
    there is one and the empty string when there is none, and is never
    [undefined] or [null]. *)
Definition entry_of (domain : string) (row entry : value) : Prop :=
  (forall link, webui row = JS.Str link ->
     JS.opt_member entry "url" = JS.Str ("https://" ++ domain ++ "/wiki" ++ link))
  /\ (JS.nullish (webui row) = true ->
        JS.opt_member entry "url" = JS.Str ("https://" ++ domain ++ "/wiki"))
  /\ (forall text, JS.opt_member row "excerpt" = JS.Str text ->
        JS.opt_member entry "excerpt" = JS.Str text)
  /\ (JS.nullish (JS.opt_member row "excerpt") = true ->
        JS.opt_member entry "excerpt" = JS.Str EmptyString)
  /\ JS.nullish (JS.opt_member entry "excerpt") = false.

(** An upstream search row with a link and an excerpt. *)
Definition linked_row : value :=
  JS.Obj [("id", JS.Str "1"); ("type", JS.Str "page"); ("title", JS.Str "Budget");
          ("_links", JS.Obj [("webui", JS.Str "/display/DOC/Budget")]);
          ("excerpt", JS.Str "The budget report for 2024")].

(** The client of the examples. *)
Definition example_config : ConfluenceConfig :=
  mkConfig "wiki.example.org" "bot@example.org" "secret".

(** The absolute URL a request goes to: axios puts the base URL of the
    instance in front of the relative URL (the bases here end without a
    slash and every relative URL starts with one). *)
Definition full_url (instance : AxiosInstance) (request : Request) : string :=
  instance_baseURL instance ++ url request.

(* ================================================================== *)
(** ** The server: environment check and tool dispatch ([index.ts]) *)
(* ================================================================== *)

Module Server.

(** [requiredEnvVars] *)
Definition requiredEnvVars : list string :=
  ["CONFLUENCE_DOMAIN"; "CONFLUENCE_EMAIL"; "CONFLUENCE_API_TOKEN"].

(** The loop that validates the environment when the module is
    loaded; [env] is [process.env], whose entries are strings or
    missing, and a missing or empty entry fails [!process.env[envVar]]. *)
Fixpoint validateEnv (env : string -> option string) (vars : list string)
    : Result unit :=
  match vars with
  | [] => Returned tt
  | envVar :: rest =>
      match given (env envVar) with
      | None => Threw (Error ("Missing required environment variable: " ++ envVar))
      | Some _ => validateEnv env rest
      end
  end.

(** The error codes of the protocol library that the dispatcher uses. *)
Inductive McpErrorCode : Type :=
| InvalidRequest
| MethodNotFound
| InvalidParams
| InternalError.

(** What can be thrown while a tool call is handled: a protocol error,
    any other [Error] object with its message, or a value that is not
    an [Error]. *)
Inductive Thrown : Type :=
| McpError (code : McpErrorCode) (message : string)
| OtherError (message : string)
| NotAnError (thrown : value).

(** How the promise of a handler, and of the dispatcher, settles. *)
Inductive Settled : Type :=
| Fulfilled (result : value)
| Failed (error : Thrown).

(** A tool handler, called with the client and one argument object.
    The handlers live in [handlers/*.ts], which is not among the
    sources: the dispatcher is embedded over arbitrary ones. *)
Definition Handler : Type := Legacy.ConfluenceClient -> value -> Settled.

Record Handlers : Type := mkHandlers {
  handleListConfluenceSpaces : Handler;
  handleGetConfluenceSpace : Handler;
  handleListConfluencePages : Handler;
  handleGetConfluencePage : Handler;
  handleFindConfluencePage : Handler;
  handleCreateConfluencePage : Handler;
  handleUpdateConfluencePage : Handler;
  handleSearchConfluencePages : Handler;
  handleGetConfluenceLabels : Handler;
  handleAddConfluenceLabel : Handler;
  handleRemoveConfluenceLabel : Handler
}.

(** [(args || {}).k], what the destructuring of the arguments reads. *)
Definition argument (args : value) (k : string) : value :=
  JS.opt_member (JS.or args (JS.Obj [])) k.

(** The object literal [{k1, k2, ...}] built from destructured
    arguments. *)
Definition pick (args : value) (names : list string) : value :=
  JS.Obj (map (fun k => (k, argument args k)) names).

(** [if (!a || !b ...) throw new McpError(ErrorCode.InvalidParams, message)] *)
Definition all_truthy (args : value) (names : list string) : bool :=
  forallb (fun k => JS.truthy (argument args k)) names.

(** [version === undefined] *)
Definition is_undefined (v : value) : bool :=
  match v with
  | JS.Undefined => true
  | _ => false
  end.

Section Dispatcher.

Variable handlers : Handlers.
Variable confluenceClient : Legacy.ConfluenceClient.

(** The [switch (name)] inside the [try] of the tool request handler. *)
Definition dispatch (name : string) (args : value) : Settled :=
  let invalid message := Failed (McpError InvalidParams message) in
  if String.eqb name "list_confluence_spaces" then
    handleListConfluenceSpaces handlers confluenceClient (pick args ["limit"; "start"])
  else if String.eqb name "get_confluence_space" then
    if negb (JS.truthy (argument args "spaceId")) then invalid "spaceId is required"
    else handleGetConfluenceSpace handlers confluenceClient (pick args ["spaceId"])
  else if String.eqb name "list_confluence_pages" then
    if negb (JS.truthy (argument args "spaceId")) then invalid "spaceId is required"
    else handleListConfluencePages handlers confluenceClient
           (pick args ["spaceId"; "limit"; "start"])
  else if String.eqb name "get_confluence_page" then
    if negb (JS.truthy (argument args "pageId")) then invalid "pageId is required"
    else handleGetConfluencePage handlers confluenceClient (pick args ["pageId"])
  else if String.eqb name "find_confluence_page" then
    if negb (JS.truthy (argument args "title")) then invalid "title is required"
    else handleFindConfluencePage handlers confluenceClient
           (pick args ["title"; "spaceId"])
  else if String.eqb name "create_confluence_page" then
    if negb (all_truthy args ["spaceId"; "title"; "content"])
    then invalid "spaceId, title, and content are required"
    else handleCreateConfluencePage handlers confluenceClient
           (pick args ["spaceId"; "title"; "content"; "parentId"])
  else if String.eqb name "update_confluence_page" then
    if negb (all_truthy args ["pageId"; "title"; "content"])
       || is_undefined (argument args "version")
    then invalid "pageId, title, content, and version are required"
    else handleUpdateConfluencePage handlers confluenceClient
           (pick args ["pageId"; "title"; "content"; "version"])
  else if String.eqb name "search_confluence_pages" then
    if negb (JS.truthy (argument args "query")) then invalid "query is required"
    else handleSearchConfluencePages handlers confluenceClient
           (pick args ["query"; "limit"; "start"])
  else if String.eqb name "get_confluence_labels" then
    if negb (JS.truthy (argument args "pageId")) then invalid "pageId is required"
    else handleGetConfluenceLabels handlers confluenceClient (pick args ["pageId"])
  else if String.eqb name "add_confluence_label" then
    if negb (all_truthy args ["pageId"; "label"])
    then invalid "pageId and label are required"
    else handleAddConfluenceLabel handlers confluenceClient (pick args ["pageId"; "label"])
  else if String.eqb name "remove_confluence_label" then
    if negb (all_truthy args ["pageId"; "label"])
    then invalid "pageId and label are required"
    else handleRemoveConfluenceLabel handlers confluenceClient
           (pick args ["pageId"; "label"])
  else Failed (McpError MethodNotFound ("Unknown tool: " ++ name)).

(** The tool request handler: the [switch] and its [catch], which lets
    protocol errors through and wraps everything else. *)
Definition callTool (name : string) (args : value) : Settled :=
  match dispatch name args with
  | Fulfilled result => Fulfilled result
  | Failed (McpError code message) => Failed (McpError code message)
  | Failed (OtherError message) =>
      Failed (McpError InternalError ("Internal server error: " ++ message))
  | Failed (NotAnError thrown) =>
      Failed (McpError InternalError
                ("Internal server error: " ++ JS.to_string thrown))
  end.

End Dispatcher.

(** The tool names of the [switch], in its order. *)
Definition tool_names : list string :=
  ["list_confluence_spaces"; "get_confluence_space"; "list_confluence_pages";
   "get_confluence_page"; "find_confluence_page"; "create_confluence_page";
   "update_confluence_page"; "search_confluence_pages"; "get_confluence_labels";
   "add_confluence_label"; "remove_confluence_label"].

(** The arguments each tool's guard tests for truthiness, and the
    message of the guard. *)
Definition required_arguments (name : string) : list string * string :=
  if String.eqb name "get_confluence_space" then (["spaceId"], "spaceId is required")
  else if String.eqb name "list_confluence_pages" then (["spaceId"], "spaceId is required")
  else if String.eqb name "get_confluence_page" then (["pageId"], "pageId is required")
  else if String.eqb name "find_confluence_page" then (["title"], "title is required")
  else if String.eqb name "create_confluence_page" then
    (["spaceId"; "title"; "content"], "spaceId, title, and content are required")
  else if String.eqb name "update_confluence_page" then
    (["pageId"; "title"; "content"], "pageId, title, content, and version are required")
  else if String.eqb name "search_confluence_pages" then (["query"], "query is required")
  else if String.eqb name "get_confluence_labels" then (["pageId"], "pageId is required")
  else if String.eqb name "add_confluence_label" then
    (["pageId"; "label"], "pageId and label are required")
  else if String.eqb name "remove_confluence_label" then
    (["pageId"; "label"], "pageId and label are required")
  else ([], EmptyString).

(** Handlers that answer with the argument object they were given. *)
Definition echoing : Handlers :=
  let echo : Handler := fun _ object => Fulfilled object in
  mkHandlers echo echo echo echo echo echo echo echo echo echo echo.

(** Handlers that throw a domain error, as an [Error] object. *)
Definition failing (message : string) : Handlers :=
  let fail : Handler := fun _ _ => Failed (OtherError message) in
  mkHandlers fail fail fail fail fail fail fail fail fail fail fail.

End Server.

(* ================================================================== *)
(** ** More requests of the legacy client *)
(* ================================================================== *)

(** The one request of [getConfluenceSpaces]. *)
Definition spaces_request (limit start : option Z) : Request :=
  mkRequest GET "/space"
    [("limit", JS.Num (default_to 25 limit)); ("start", JS.Num (default_to 0 start))]
    JS.Undefined.

(** The one request of [getConfluenceSpace]. *)
Definition space_request (spaceKey : string) : Request :=
  mkRequest GET ("/space/" ++ spaceKey) [] JS.Undefined.

(** The one request of [getConfluenceLabels]. *)
Definition labels_request (pageId : string) : Request :=
  mkRequest GET ("/content/" ++ pageId ++ "/label") [] JS.Undefined.

(** A method sends exactly one request, and it is a GET. *)
Definition one_get {A} (call : M A) (w : World) : Prop :=
  exists request, requests_of call w = [request] /\ method request = GET.

(** A method relays its one request: it sends [request] and nothing
    else, returns [back data] when the transport answers it with
    [data], and throws the very error the transport rejects it with. *)
Definition relays {A} (call : M A) (request : Request) (back : value -> A)
    (w : World) : Prop :=
  requests_of call w = [request]
  /\ result_of call w =
     match transport w [] request with
     | Resolved data => Returned (back data)
     | Rejected error => Threw error
     end.

(** The one request of the typed [createPage]. *)
Definition typed_create_request (spaceId title content : string)
    (parentId : option string) : Request :=
  mkRequest POST "/pages" []
    (JS.Obj (app [("spaceId", JS.Str spaceId);
                  ("status", JS.Str "current");
                  ("title", JS.Str title);
                  ("body", JS.Obj [("representation", JS.Str "storage");
                                   ("value", JS.Str content)])]
               match given parentId with
               | Some p => [("parentId", JS.Str p)]
               | None => []
               end)).

(** A server that answers the first request of a call with [first]
    and rejects every later one with [error]. *)
Definition failing_after (first : value) (error : Exn) : World :=
  mkWorld
    (fun history _ =>
       match history with
       | [] => Resolved first
       | _ => Rejected error
       end)
    noon.

(** The rejection of a stale version. *)
Definition conflict : Exn :=
  AxiosError "Request failed with status code 409"
    (Some (mkResponse 409 "Conflict"
             (JS.Obj [("message", JS.Str "Version must be incremented")]))).

(** A network failure: an axios error without a response. *)
Definition unreachable : Exn := AxiosError "connect ECONNREFUSED" None.

(* ================================================================== *)
(** ** Observations on the server *)
(* ================================================================== *)

(** An environment variable is set to something [!value] accepts. *)
Definition is_set (env : string -> option string) (name : string) : Prop :=
  exists text, env name = Some text /\ text <> EmptyString.

(** The argument names the dispatcher ever destructures. *)
Definition declared_arguments : list string :=
  ["limit"; "start"; "spaceId"; "pageId"; "title"; "content"; "parentId";
   "version"; "query"; "label"].

(** Two argument objects that look the same to the dispatcher. *)
Definition same_declared (args args' : value) : Prop :=
  forall k, In k declared_arguments ->
    Server.argument args k = Server.argument args' k.

(** An environment with the three variables set. *)
Definition full_env : string -> option string :=
  fun name =>
    if String.eqb name "CONFLUENCE_DOMAIN" then Some "wiki.example.org"
    else if String.eqb name "CONFLUENCE_EMAIL" then Some "bot@example.org"
    else if String.eqb name "CONFLUENCE_API_TOKEN" then Some "secret"
    else None.

(** The client the server of the examples holds. *)
Definition example_client : Legacy.ConfluenceClient :=
  Legacy.constructor example_config.

(** [entry] summarises the upstream row [row]: its [content] copies
    the identifying fields of the row, and [lastModified] is the time
    of the row's version. *)
Definition summary_of (row entry : value) : Prop :=
  JS.keys entry = ["content"; "url"; "lastModified"; "excerpt"]
  /\ JS.keys (JS.opt_member entry "content") =
     ["id"; "type"; "status"; "title"; "spaceId"; "_links"]
  /\ JS.opt_member (JS.opt_member entry "content") "id" = JS.opt_member row "id"
  /\ JS.opt_member (JS.opt_member entry "content") "type" = JS.opt_member row "type"
  /\ JS.opt_member (JS.opt_member entry "content") "status" = JS.opt_member row "status"
  /\ JS.opt_member (JS.opt_member entry "content") "title" = JS.opt_member row "title"
  /\ JS.opt_member (JS.opt_member entry "content") "spaceId" =
     JS.opt_member (JS.opt_member row "space") "id"
  /\ JS.opt_member (JS.opt_member entry "content") "_links" =
     JS.opt_member row "_links"
  /\ JS.opt_member entry "lastModified" =
     JS.opt_member (JS.opt_member row "version") "when".

(** The one request of the typed [updatePage]. *)
Definition typed_write_request (pageId title content : string) (version : Z)
    (iso : string) : Request :=
  mkRequest PUT ("/pages/" ++ pageId) []
    (JS.Obj [("id", JS.Str pageId);
             ("status", JS.Str "current");
             ("title", JS.Str title);
             ("body", JS.Obj [("representation", JS.Str "storage");
                              ("value", JS.Str content)]);
             ("version",
              JS.Obj [("number", JS.Num (JS.increment version));
                      ("message", JS.Str ("Updated via MCP at " ++ iso))])]).

(* ================================================================== *)
(** ** The search condition as the specification words it *)
(* ================================================================== *)

(** A character that continues a word: a letter, a digit or [_]. *)
Definition is_word_char (c : ascii) : bool :=
  let n := nat_of_ascii c in
  ((65 <=? n) && (n <=? 90) || (97 <=? n) && (n <=? 122)
   || (48 <=? n) && (n <=? 57) || (n =? 95))%nat.

Fixpoint skip_blanks (s : string) : string :=
  match s with
  | String c rest => if Ascii.eqb c " " then skip_blanks rest else s
  | EmptyString => s
  end.

(** What follows [needle] when [hay] starts with it. *)
Fixpoint strip_prefix (needle hay : string) : option string :=
  match needle, hay with
  | EmptyString, _ => Some hay
  | String a needle', String b hay' =>
      if Ascii.eqb a b then strip_prefix needle' hay' else None
  | String _ _, EmptyString => None
  end.

(** The text starts with the field name [type], then blanks or none,
    then the operator [=]. *)
Definition type_clause_here (s : string) : bool :=
  match strip_prefix "type" s with
  | Some rest =>
      match skip_blanks rest with
      | String c _ => Ascii.eqb c "="
      | EmptyString => false
      end
  | None => false
  end.

Fixpoint scan_type_clause (inside_word : bool) (s : string) : bool :=
  (negb inside_word && type_clause_here s)
  || match s with
     | String c rest => scan_type_clause (is_word_char c) rest
     | EmptyString => false
     end.

(** The specification's condition, from its words and not from the
    code: the query contains a type filter clause, that is the field
    name [type] standing as a word of its own and compared with [=],
    with or without blanks around the operator.  The client tests
    something else ([Legacy.search_cql]). *)
Definition spec_type_filter_clause (query : string) : bool :=
  scan_type_clause false query.

(** The request [searchConfluenceContent] would send for a [cql]
    text, with the default paging. *)
Definition default_search_request (cql : string) : Request :=
  mkRequest GET "/content/search"
    [("cql", JS.Str cql);
     ("limit", JS.Num 25);
     ("start", JS.Num 0);
     ("expand", JS.Str "space,version,body.view")]
    JS.Undefined.

(* ================================================================== *)
(** * Properties *)
(* ================================================================== *)

(** ** String search *)

Module TextFacts.
Import Text.

Lemma append_assoc (a b c : string) : (a ++ b) ++ c = a ++ b ++ c.
Proof. induction a as [|x a IH]; cbn; [reflexivity|now rewrite IH]. Qed.

Lemma startsWith_prefix needle : forall hay,
  startsWith needle hay = true <-> exists rest, hay = needle ++ rest.
Proof.
  induction needle as [|a needle IH]; intros hay.
  - split; [intros _; exists hay; reflexivity | reflexivity].
  - destruct hay as [|b hay]; cbn [startsWith].
    + split; [discriminate | intros [rest H]; discriminate H].
    + destruct (Ascii.eqb_spec a b) as [->|Hne].
      * rewrite IH. split; intros [rest H]; exists rest.
        -- cbn. now rewrite H.
        -- cbn in H. now injection H.
      * split; [discriminate|].
        intros [rest H]. cbn in H. injection H as Hab _. now elim Hne.
Qed.

Lemma includes_occurs needle : forall hay,
  includes needle hay = true <-> occurs_in needle hay.
Proof.
  induction hay as [|c hay IH]; cbn [includes].
  - destruct (startsWith needle EmptyString) eqn:E.
    + split; [intros _|reflexivity].
      apply startsWith_prefix in E. destruct E as [rest E].
      exists EmptyString, rest. exact E.
    + split; [discriminate|].
      intros [before [after H]].
      destruct before; [|discriminate H].
      cbn in H. assert (startsWith needle EmptyString = true) as E'
        by (apply startsWith_prefix; now exists after).
      congruence.
  - destruct (startsWith needle (String c hay)) eqn:E.
    + split; [intros _|reflexivity].
      apply startsWith_prefix in E. destruct E as [rest E].
      exists EmptyString, rest. exact E.
    + rewrite IH. split.
      * intros [before [after H]]. exists (String c before), after.
        cbn. now rewrite H.
      * intros [before [after H]].
        destruct before as [|c' before].
        -- cbn in H.
           assert (startsWith needle (String c hay) = true) as E'
             by (apply startsWith_prefix; now exists after).
           congruence.
        -- cbn in H. injection H as _ H. now exists before, after.
Qed.

Lemma includes_absent needle hay :
  includes needle hay = false <-> ~ occurs_in needle hay.
Proof.
  rewrite <- includes_occurs. destruct (includes needle hay); split;
    congruence.
Qed.

End TextFacts.

(** ** Numbers *)

(** Below 2^53 the sum is exact. *)
Lemma increment_exact n : Z.abs (n + 1) <= 2 ^ 53 -> JS.increment n = n + 1.
Proof.
  intros H. unfold JS.increment, JS.to_double.
  destruct (Z.ltb_spec (Z.abs (n + 1)) (2 ^ 53)) as [Hlt|Hge]; [reflexivity|].
  assert (Z.abs (n + 1) = 2 ^ 53) as Habs by lia.
  rewrite Habs.
  destruct (Z.abs_eq_or_opp (n + 1)) as [E|E]; rewrite Habs in E.
  - rewrite <- E. reflexivity.
  - assert (n + 1 = - 2 ^ 53) as -> by lia. reflexivity.
Qed.

(** At 2^53 the sum is not representable and rounds back. *)
Lemma increment_rounds : JS.increment (2 ^ 53) = 2 ^ 53.
Proof. reflexivity. Qed.

(** Numbers print as JavaScript prints them: small ones as their
    digits, 2^64 with the 17 digits that identify it, 2^70 with an
    exponent. *)
Lemma string_of_Z_examples :
  JS.string_of_Z 404 = "404"
  /\ JS.string_of_Z (-7) = "-7"
  /\ JS.string_of_Z (2 ^ 53) = "9007199254740992"
  /\ JS.string_of_Z (2 ^ 64) = "18446744073709552000"
  /\ JS.string_of_Z (2 ^ 70) = "1.1805916207174113e+21"
  /\ JS.string_of_Z (10 ^ 21) = "1e+21".
Proof. repeat split; vm_compute; reflexivity. Qed.

(** ** The request log *)

Lemma silent_ret A (a : A) : silent (ret a).
Proof. intros w s. reflexivity. Qed.

Lemma silent_throw A (e : Exn) : silent (@throw A e).
Proof. intros w s. reflexivity. Qed.

Lemma silent_now : silent now.
Proof. intros w s. reflexivity. Qed.

Lemma silent_bind A B (c : M A) (k : A -> M B) :
  silent c -> (forall a, silent (k a)) -> silent (bind c k).
Proof.
  intros Hc Hk w s. unfold bind.
  specialize (Hc w s). destruct (c w s) as [s' [a|e]]; cbn in *.
  - now rewrite Hk.
  - exact Hc.
Qed.

Lemma silent_try A (c : M A) (h : Exn -> M A) :
  silent c -> (forall e, silent (h e)) -> silent (try_catch c h).
Proof.
  intros Hc Hh w s. unfold try_catch.
  specialize (Hc w s). destruct (c w s) as [s' [a|e]]; cbn in *.
  - exact Hc.
  - now rewrite Hh.
Qed.

Lemma silent_prop v k : silent (prop v k).
Proof. unfold prop. destruct (JS.member v k); [apply silent_ret|apply silent_throw]. Qed.

Lemma silent_as_array v : silent (as_array v).
Proof. destruct v; first [apply silent_ret|apply silent_throw]. Qed.

Lemma silent_first_item v : silent (first_item v).
Proof.
  destruct v as [| | | |[|? ?]|[|? ?]|]; first [apply silent_ret|apply silent_throw].
Qed.

Lemma silent_includes_call v needle : silent (includes_call v needle).
Proof. destruct v; first [apply silent_ret|apply silent_throw]. Qed.

Lemma silent_if A (b : bool) (c1 c2 : M A) :
  silent c1 -> silent c2 -> silent (if b then c1 else c2).
Proof. now destruct b. Qed.

Lemma silent_mapM A B (f : A -> M B) items :
  (forall x, silent (f x)) -> silent (mapM f items).
Proof.
  intros Hf. induction items as [|x rest IH]; cbn [mapM].
  - apply silent_ret.
  - apply silent_bind; [apply Hf|]. intros y.
    apply silent_bind; [exact IH|]. intros ys. apply silent_ret.
Qed.

Create HintDb silent.

#[local] Hint Resolve silent_ret silent_throw silent_now silent_prop
  silent_as_array silent_first_item silent_includes_call silent_mapM : silent.

Ltac silence :=
  repeat first
    [ progress auto with silent
    | apply silent_bind; [|intros ?]
    | apply silent_try; [|intros ?]
    | apply silent_if
    | match goal with
      | |- silent (match ?x with _ => _ end) => destruct x
      end ].

Lemma silent_toPage b page : silent (Legacy.toPage b page).
Proof. unfold Legacy.toPage. silence. Qed.

Lemma silent_toSearchEntry this result : silent (Legacy.toSearchEntry this result).
Proof. unfold Legacy.toSearchEntry. silence. Qed.

#[local] Hint Resolve silent_toPage silent_toSearchEntry : silent.

(** Stepping through the combinators. *)

Lemma send_bind A (r : Request) (k : value -> M A) w s :
  bind (send r) k w s =
  match transport w (sent s) r with
  | Resolved d => k d w (mkSt (sent s ++ [r]) (ticks s))
  | Rejected e => (mkSt (sent s ++ [r]) (ticks s), Threw e)
  end.
Proof. unfold bind, send. now destruct (transport w (sent s) r). Qed.

Lemma sent_send_bind A (r : Request) (k : value -> M A) w s :
  (forall d, silent (k d)) ->
  sent (fst (bind (send r) k w s)) = (sent s ++ [r])%list.
Proof.
  intros Hk. rewrite send_bind.
  destruct (transport w (sent s) r); [|reflexivity].
  now rewrite Hk.
Qed.

Lemma sent_try_send_bind A (r : Request) (k : value -> M A) h w s :
  (forall d, silent (k d)) -> (forall e, silent (h e)) ->
  sent (fst (try_catch (bind (send r) k) h w s)) = (sent s ++ [r])%list.
Proof.
  intros Hk Hh. unfold try_catch.
  pose proof (sent_send_bind A r k w s Hk) as H.
  destruct (bind (send r) k w s) as [s' [a|e]]; cbn in *; [exact H|].
  now rewrite Hh.
Qed.

(* ================================================================== *)
(** ** Search: the transmitted query *)
(* ================================================================== *)

Section SearchQuery.

Variable this : Legacy.ConfluenceClient.

Lemma searchConfluenceContent_requests w query limit start :
  requests_of (Legacy.searchConfluenceContent this query limit start) w =
  [mkRequest GET "/content/search"
     [("cql", JS.Str (Legacy.search_cql query));
      ("limit", JS.Num (default_to 25 limit));
      ("start", JS.Num (default_to 0 start));
      ("expand", JS.Str "space,version,body.view")]
     JS.Undefined].
Proof.
  unfold requests_of, run, Legacy.searchConfluenceContent.
  rewrite sent_try_send_bind; [reflexivity| |].
  - intros d. silence.
  - intros e. silence.
Qed.

(** C2, amended: [searchConfluenceContent] sends exactly one request,
    a GET on [/content/search], whose [cql] parameter is the caller's
    query itself when the query contains the literal text [type =]
    (the letters, one blank, the equals sign), and the free-text
    clause [text ~ "query"] otherwise; so the query [type = "page"]
    goes out unmodified and [budget report] goes out as
    [text ~ "budget report"]. *)
Theorem searchConfluenceContent_cql w query limit start :
  exists request,
    requests_of (Legacy.searchConfluenceContent this query limit start) w = [request]
    /\ method request = GET
    /\ url request = "/content/search"
    /\ (Text.occurs_in "type =" query ->
        JS.lookup "cql" (params request) = JS.Str query)
    /\ (~ Text.occurs_in "type =" query ->
        JS.lookup "cql" (params request) =
        JS.Str ("text ~ " ++ Text.dquote ++ query ++ Text.dquote))
    /\ Legacy.search_cql ("type = " ++ Text.dquote ++ "page" ++ Text.dquote) =
       "type = " ++ Text.dquote ++ "page" ++ Text.dquote
    /\ Legacy.search_cql "budget report" =
       "text ~ " ++ Text.dquote ++ "budget report" ++ Text.dquote.
Proof.
  eexists. split; [apply searchConfluenceContent_requests|].
  cbn [method url params JS.lookup String.eqb Ascii.eqb Bool.eqb].
  unfold Legacy.search_cql.
  repeat split.
  - intros H. apply TextFacts.includes_occurs in H. now rewrite H.
  - intros H. apply TextFacts.includes_absent in H. now rewrite H.
Qed.

End SearchQuery.

(** C2 on a query that already filters by type. *)
Lemma searchConfluenceContent_cql_witness :
  exists request,
    requests_of (Legacy.searchConfluenceContent (Legacy.constructor example_config)
                   "space = DOC AND type = page" None None)
      (answering (JS.Obj [("results", JS.Arr [])])) = [request]
    /\ JS.lookup "cql" (params request) = JS.Str "space = DOC AND type = page".
Proof.
  destruct (searchConfluenceContent_cql (Legacy.constructor example_config)
              (answering (JS.Obj [("results", JS.Arr [])]))
              "space = DOC AND type = page" None None)
    as [request [Hreq [_ [_ [Hin _]]]]].
  exists request. split; [exact Hreq|].
  apply Hin. exists "space = DOC AND ", " page". reflexivity.
Defined.

(** C2, as the claim has it, fails in both directions.  The query
    [type="page"] contains a type filter clause, the one of the claim's
    own example without its blanks, yet it is not transmitted
    verbatim: the client wraps it into a free-text clause.  And
    [prototype = fast], which filters nothing by type, is transmitted
    verbatim instead of being wrapped, because the word [prototype]
    ends in the text the client looks for. *)
Lemma searchConfluenceContent_type_clause_wrapped :
  spec_type_filter_clause ("type=" ++ Text.quoted "page") = true
  /\ requests_of (Legacy.searchConfluenceContent example_client
                    ("type=" ++ Text.quoted "page") None None)
       (answering (JS.Obj [("results", JS.Arr [])])) =
     [default_search_request ("text ~ " ++ Text.quoted ("type=" ++ Text.quoted "page"))]
  /\ "text ~ " ++ Text.quoted ("type=" ++ Text.quoted "page") <>
     "type=" ++ Text.quoted "page"
  /\ spec_type_filter_clause "prototype = fast" = false
  /\ requests_of (Legacy.searchConfluenceContent example_client
                    "prototype = fast" None None)
       (answering (JS.Obj [("results", JS.Arr [])])) =
     [default_search_request "prototype = fast"].
Proof.
  rewrite !searchConfluenceContent_requests.
  repeat split. discriminate.
Qed.

(** The claim's own two examples, under the specification's wording of
    the condition: the first contains a type filter clause, the second
    does not. *)
Lemma spec_type_filter_clause_examples :
  spec_type_filter_clause ("type = " ++ Text.quoted "page") = true
  /\ spec_type_filter_clause "budget report" = false.
Proof. split; reflexivity. Qed.

(* ================================================================== *)
(** ** Connection check *)
(* ================================================================== *)

Lemma verifyApiConnection_run w :
  run Legacy.verifyApiConnection w =
  (mkSt [probe] 0,
   match transport w [] probe with
   | Resolved _ => Returned tt
   | Rejected error => Threw (Error (Legacy.connection_error_message error))
   end).
Proof.
  unfold run, Legacy.verifyApiConnection, try_catch.
  rewrite send_bind. cbn [sent initial ticks app]. fold probe.
  destruct (transport w [] probe); reflexivity.
Qed.

(** C6: [verifyApiConnection] sends exactly one request, the listing of
    spaces with [limit = 1]; when it is answered the method returns
    nothing; when it fails the method throws one plain [Error] whose
    message is chosen by the HTTP status of the failure: 401 invalid
    credentials, 403 insufficient permissions, 404 wrong address, 500
    and above server unavailable, and the generic connection failure
    for every other status, for a failure without a response and for a
    failure that is not an axios error. *)
Theorem verifyApiConnection_classifies w :
  requests_of Legacy.verifyApiConnection w = [probe]
  /\ (forall data, transport w [] probe = Resolved data ->
        result_of Legacy.verifyApiConnection w = Returned tt)
  /\ (forall error, transport w [] probe = Rejected error ->
        exists message,
          result_of Legacy.verifyApiConnection w = Threw (Error message)
          /\ message = Legacy.connection_error_message error)
  /\ (forall m text payload,
        let failure code := AxiosError m (Some (mkResponse code text payload)) in
        Legacy.connection_error_message (failure 401) =
          "Authentication failed: Invalid API token or email"
        /\ Legacy.connection_error_message (failure 403) =
          "Authorization failed: Insufficient permissions"
        /\ Legacy.connection_error_message (failure 404) =
          "API endpoint not found: Check Confluence domain"
        /\ (forall code, 500 <= code ->
              Legacy.connection_error_message (failure code) =
              "Confluence server error: API may be temporarily unavailable")
        /\ (forall code, code < 500 -> code <> 401 -> code <> 403 -> code <> 404 ->
              Legacy.connection_error_message (failure code) =
              "Failed to connect to Confluence API")
        /\ Legacy.connection_error_message (AxiosError m None) =
          "Failed to connect to Confluence API")
  /\ (forall error,
        match error with AxiosError _ _ => False | _ => True end ->
        Legacy.connection_error_message error =
        "Failed to connect to Confluence API").
Proof.
  unfold requests_of, result_of. rewrite verifyApiConnection_run. cbn [fst snd sent].
  split; [reflexivity|].
  split; [intros data ->; reflexivity|].
  split; [intros error ->; eexists; split; reflexivity|].
  split.
  - intros m text payload.
    repeat split.
    + intros code Hcode. unfold Legacy.connection_error_message. cbn [status].
      destruct (Z.eqb_spec code 401); [lia|].
      destruct (Z.eqb_spec code 403); [lia|].
      destruct (Z.eqb_spec code 404); [lia|].
      destruct (Z.leb_spec 500 code); [reflexivity|lia].
    + intros code Hcode H1 H3 H4. unfold Legacy.connection_error_message. cbn [status].
      destruct (Z.eqb_spec code 401); [lia|].
      destruct (Z.eqb_spec code 403); [lia|].
      destruct (Z.eqb_spec code 404); [lia|].
      destruct (Z.leb_spec 500 code); [lia|reflexivity].
  - intros [m r| | |]; [intros []|reflexivity..].
Qed.

(** C6 on a server that answers 503. *)
Lemma verifyApiConnection_classifies_witness :
  result_of Legacy.verifyApiConnection (rejecting 503 "Service Unavailable") =
  Threw (Error "Confluence server error: API may be temporarily unavailable").
Proof.
  destruct (verifyApiConnection_classifies (rejecting 503 "Service Unavailable"))
    as [_ [_ [Hfail [Hclass _]]]].
  destruct (Hfail _ eq_refl) as [message [Hres Hmsg]].
  rewrite Hres. f_equal. f_equal. rewrite Hmsg.
  destruct (Hclass "Request failed" "Error"
              (JS.Obj [("message", JS.Str "Service Unavailable")]))
    as [_ [_ [_ [Hserver _]]]].
  apply Hserver. lia.
Defined.

(* ================================================================== *)
(** ** Page content *)
(* ================================================================== *)

Lemma prop_of_object v k :
  JS.nullish v = false -> prop v k = ret (JS.opt_member v k).
Proof. destruct v; cbn; intros H; try discriminate H; reflexivity. Qed.

Lemma truthy_not_empty v :
  JS.truthy v = true -> v <> JS.Str EmptyString /\ JS.nullish v = false.
Proof. destruct v; cbn; intros H; try discriminate H; split; try reflexivity; try discriminate.
  intros E. injection E as ->. discriminate H.
Qed.

Lemma getPageContent_run w pageId :
  run (Legacy.getPageContent pageId) w =
  (mkSt [content_request pageId] 0,
   content_outcome (transport w [] (content_request pageId))).
Proof.
  unfold run, Legacy.getPageContent, try_catch.
  rewrite send_bind. cbn [sent initial ticks app]. fold (content_request pageId).
  destruct (transport w [] (content_request pageId)) as [page|error].
  - unfold content_outcome, storage_value, bind, prop, JS.opt_member.
    destruct (JS.member page "body") as [body|]; [|reflexivity].
    cbn [ret].
    match goal with |- context [JS.truthy ?c] => destruct (JS.truthy c) end;
      reflexivity.
  - destruct error as [m [r|]| | |]; cbn [content_outcome response_status];
      try reflexivity.
    destruct (status r =? 404); [reflexivity|].
    destruct (status r =? 403); reflexivity.
Qed.

(** C3: [getPageContent] throws the domain error [EMPTY_CONTENT]
    whenever the fetched page has no storage body or an empty one
    ([page.body?.storage?.value] is [undefined], [null] or the empty
    string, or any other falsy value); what it returns on success is
    never empty; an HTTP 404 failure is thrown as [PAGE_NOT_FOUND] and
    an HTTP 403 failure as [INSUFFICIENT_PERMISSIONS]. *)
Theorem getPageContent_errors w pageId :
  let answer := transport w [] (content_request pageId) in
  let result := result_of (Legacy.getPageContent pageId) w in
  (forall page, answer = Resolved page -> JS.nullish page = false ->
     JS.truthy (storage_value page) = false ->
     result = Threw (ConfluenceError "Page content is empty or not accessible"
                       EMPTY_CONTENT))
  /\ (forall page, answer = Resolved page -> JS.nullish page = false ->
        JS.truthy (storage_value page) = true ->
        result = Returned (storage_value page))
  /\ (forall content, result = Returned content ->
        JS.truthy content = true
        /\ content <> JS.Str EmptyString
        /\ JS.nullish content = false)
  /\ (forall m r, answer = Rejected (AxiosError m (Some r)) -> status r = 404 ->
        result = Threw (ConfluenceError "Page content not found" PAGE_NOT_FOUND))
  /\ (forall m r, answer = Rejected (AxiosError m (Some r)) -> status r = 403 ->
        result = Threw (ConfluenceError
                          "Insufficient permissions to access page content"
                          INSUFFICIENT_PERMISSIONS)).
Proof.
  intros answer result. subst answer result.
  unfold result_of. rewrite getPageContent_run. cbn [snd].
  repeat apply conj.
  - intros page -> Hpage Hempty. cbn [content_outcome].
    destruct page; try discriminate Hpage; cbn [JS.member]; now rewrite Hempty.
  - intros page -> Hpage Hfull. cbn [content_outcome].
    destruct page; try discriminate Hpage; cbn [JS.member]; now rewrite Hfull.
  - intros content H.
    assert (JS.truthy content = true) as Ht.
    { destruct (transport w [] (content_request pageId)) as [page|error];
        cbn [content_outcome] in H.
      - destruct (JS.member page "body"); [|discriminate H].
        destruct (JS.truthy (storage_value page)) eqn:E; [|discriminate H].
        injection H as <-. exact E.
      - destruct error as [m [r|]| | |]; try discriminate H.
        destruct (status r =? 404); [discriminate H|].
        destruct (status r =? 403); discriminate H. }
    split; [exact Ht|]. now apply truthy_not_empty.
  - intros m r -> Hs. cbn [content_outcome]. now rewrite Hs.
  - intros m r -> Hs. cbn [content_outcome]. now rewrite Hs.
Qed.

(** C3 on a page whose storage body is the empty string, and on a 404
    and a 403 failure. *)
Lemma getPageContent_errors_witness :
  result_of (Legacy.getPageContent "42")
    (answering (JS.Obj [("id", JS.Str "42");
                        ("body", JS.Obj [("storage",
                                          JS.Obj [("value", JS.Str EmptyString)])])])) =
  Threw (ConfluenceError "Page content is empty or not accessible" EMPTY_CONTENT)
  /\ result_of (Legacy.getPageContent "42") (rejecting 404 "No content found") =
     Threw (ConfluenceError "Page content not found" PAGE_NOT_FOUND)
  /\ result_of (Legacy.getPageContent "42") (rejecting 403 "Forbidden") =
     Threw (ConfluenceError "Insufficient permissions to access page content"
              INSUFFICIENT_PERMISSIONS).
Proof.
  split; [|split].
  - apply (proj1 (getPageContent_errors
                    (answering
                       (JS.Obj [("id", JS.Str "42");
                                ("body",
                                 JS.Obj [("storage",
                                          JS.Obj [("value", JS.Str EmptyString)])])]))
                    "42")
             (JS.Obj [("id", JS.Str "42");
                      ("body", JS.Obj [("storage",
                                        JS.Obj [("value", JS.Str EmptyString)])])]));
      reflexivity.
  - destruct (getPageContent_errors (rejecting 404 "No content found") "42")
      as [_ [_ [_ [Hmissing _]]]].
    apply (Hmissing "Request failed"
             (mkResponse 404 "Error" (JS.Obj [("message", JS.Str "No content found")])));
      reflexivity.
  - destruct (getPageContent_errors (rejecting 403 "Forbidden") "42")
      as [_ [_ [_ [_ Hforbidden]]]].
    apply (Hforbidden "Request failed"
             (mkResponse 403 "Error" (JS.Obj [("message", JS.Str "Forbidden")])));
      reflexivity.
Defined.

(* ================================================================== *)
(** ** Labels *)
(* ================================================================== *)

Lemma removeConfluenceLabel_requests w pageId label :
  requests_of (Legacy.removeConfluenceLabel pageId label) w =
  [remove_request pageId label].
Proof.
  unfold requests_of, run, Legacy.removeConfluenceLabel.
  rewrite sent_try_send_bind; [reflexivity| |].
  - intros d. silence.
  - intros e. silence.
Qed.

(** The 404 branch of the handler of [removeConfluenceLabel], once the
    payload message is known to be a string. *)
Lemma removeConfluenceLabel_404_text w pageId label m r s :
  transport w [] (remove_request pageId label) = Rejected (AxiosError m (Some r)) ->
  status r = 404 ->
  payload_message r = JS.Str s ->
  result_of (Legacy.removeConfluenceLabel pageId label) w =
  if Text.includes "label" s
  then Threw (ConfluenceError ("Label " ++ Text.quoted label ++ " not found on page")
                LABEL_NOT_FOUND)
  else Threw (ConfluenceError "Page not found" PAGE_NOT_FOUND).
Proof.
  intros Hw Hs Hm.
  unfold result_of, run, Legacy.removeConfluenceLabel, try_catch.
  rewrite send_bind. cbn [sent initial ticks app]. fold (remove_request pageId label).
  rewrite Hw. cbn [response_status response_data]. rewrite Hs. cbn [Z.eqb Pos.eqb].
  unfold payload_message in Hm. rewrite Hm.
  unfold bind, includes_call, ret. cbn [JS.truthy].
  destruct (Text.includes "label" s); reflexivity.
Qed.

Lemma removeConfluenceLabel_404_absent w pageId label m r :
  transport w [] (remove_request pageId label) = Rejected (AxiosError m (Some r)) ->
  status r = 404 ->
  JS.nullish (payload_message r) = true ->
  result_of (Legacy.removeConfluenceLabel pageId label) w =
  Threw (ConfluenceError "Page not found" PAGE_NOT_FOUND).
Proof.
  intros Hw Hs Hm.
  unfold result_of, run, Legacy.removeConfluenceLabel, try_catch.
  rewrite send_bind. cbn [sent initial ticks app]. fold (remove_request pageId label).
  rewrite Hw. cbn [response_status response_data]. rewrite Hs. cbn [Z.eqb Pos.eqb].
  unfold payload_message in Hm.
  destruct (JS.opt_member (payload r) "message"); try discriminate Hm; reflexivity.
Qed.

(** C4: when the DELETE of [removeConfluenceLabel] fails with HTTP 404,
    the handler reads the text of the error payload ([data?.message],
    a string or absent): a text that mentions [label] makes it throw
    [LABEL_NOT_FOUND], any other text or no text makes it throw
    [PAGE_NOT_FOUND]; in both cases what is thrown is a
    [ConfluenceError] with one of these two codes, never [UNKNOWN]. *)
Theorem removeConfluenceLabel_not_found w pageId label m r :
  transport w [] (remove_request pageId label) = Rejected (AxiosError m (Some r)) ->
  status r = 404 ->
  let result := result_of (Legacy.removeConfluenceLabel pageId label) w in
  (forall s, payload_message r = JS.Str s -> Text.occurs_in "label" s ->
     result = Threw (ConfluenceError
                       ("Label " ++ Text.quoted label ++ " not found on page")
                       LABEL_NOT_FOUND))
  /\ (forall s, payload_message r = JS.Str s -> ~ Text.occurs_in "label" s ->
        result = Threw (ConfluenceError "Page not found" PAGE_NOT_FOUND))
  /\ (JS.nullish (payload_message r) = true ->
        result = Threw (ConfluenceError "Page not found" PAGE_NOT_FOUND))
  /\ ((JS.nullish (payload_message r) = true \/ exists s, payload_message r = JS.Str s) ->
        exists text code,
          result = Threw (ConfluenceError text code)
          /\ (code = LABEL_NOT_FOUND \/ code = PAGE_NOT_FOUND)
          /\ code <> UNKNOWN).
Proof.
  intros Hw Hs result. subst result.
  repeat apply conj.
  - intros s Hm Hin. rewrite (removeConfluenceLabel_404_text w pageId label m r s Hw Hs Hm).
    apply TextFacts.includes_occurs in Hin. now rewrite Hin.
  - intros s Hm Hout. rewrite (removeConfluenceLabel_404_text w pageId label m r s Hw Hs Hm).
    apply TextFacts.includes_absent in Hout. now rewrite Hout.
  - intros Hm. exact (removeConfluenceLabel_404_absent w pageId label m r Hw Hs Hm).
  - intros [Hm|[s Hm]].
    + rewrite (removeConfluenceLabel_404_absent w pageId label m r Hw Hs Hm).
      do 2 eexists. split; [reflexivity|]. split; [now right|discriminate].
    + rewrite (removeConfluenceLabel_404_text w pageId label m r s Hw Hs Hm).
      destruct (Text.includes "label" s); do 2 eexists;
        (split; [reflexivity|]); split; try discriminate; auto.
Qed.

(** C4 on the two kinds of 404: the label is missing, the page is
    missing. *)
Lemma removeConfluenceLabel_not_found_witness :
  result_of (Legacy.removeConfluenceLabel "42" "draft")
    (rejecting 404 "The label draft does not exist on content 42") =
  Threw (ConfluenceError ("Label " ++ Text.quoted "draft" ++ " not found on page")
           LABEL_NOT_FOUND)
  /\ result_of (Legacy.removeConfluenceLabel "42" "draft")
       (rejecting 404 "No content found with id: 42") =
     Threw (ConfluenceError "Page not found" PAGE_NOT_FOUND).
Proof.
  split.
  - apply (proj1 (@removeConfluenceLabel_not_found
                    (rejecting 404 "The label draft does not exist on content 42")
                    "42" "draft" _ _ eq_refl eq_refl)
             "The label draft does not exist on content 42" eq_refl).
    exists "The ", " draft does not exist on content 42". reflexivity.
  - apply (proj1 (proj2 (@removeConfluenceLabel_not_found
                    (rejecting 404 "No content found with id: 42")
                    "42" "draft" _ _ eq_refl eq_refl))
             "No content found with id: 42" eq_refl).
    apply TextFacts.includes_absent. reflexivity.
Defined.

Lemma addConfluenceLabel_requests w pageId label :
  requests_of (Legacy.addConfluenceLabel pageId label) w = [add_request pageId label].
Proof.
  unfold requests_of, run, Legacy.addConfluenceLabel.
  rewrite sent_try_send_bind; [reflexivity| |].
  - intros d. silence.
  - intros e. silence.
Qed.

(** The handler of [addConfluenceLabel] on a failure that carries a
    response whose payload message is a string. *)
Lemma addConfluenceLabel_rejected w pageId label m r s :
  transport w [] (add_request pageId label) = Rejected (AxiosError m (Some r)) ->
  payload_message r = JS.Str s ->
  result_of (Legacy.addConfluenceLabel pageId label) w =
  if status r =? 404 then
    Threw (ConfluenceError "Page not found" PAGE_NOT_FOUND)
  else if Text.includes "already has the label" s then
    Threw (ConfluenceError ("Label " ++ Text.quoted label ++ " already exists on this page")
             LABEL_EXISTS)
  else Threw (ConfluenceError ("Failed to add label: " ++ m) UNKNOWN).
Proof.
  intros Hw Hm.
  unfold result_of, run, Legacy.addConfluenceLabel, try_catch.
  rewrite send_bind. cbn [sent initial ticks app]. fold (add_request pageId label).
  rewrite Hw. cbn [response_status response_data].
  destruct (status r =? 404); [reflexivity|].
  unfold payload_message in Hm. rewrite Hm.
  unfold bind, includes_call, ret. cbn [JS.truthy].
  destruct (Text.includes "already has the label" s); reflexivity.
Qed.

Lemma addConfluenceLabel_404 w pageId label m r :
  transport w [] (add_request pageId label) = Rejected (AxiosError m (Some r)) ->
  status r = 404 ->
  result_of (Legacy.addConfluenceLabel pageId label) w =
  Threw (ConfluenceError "Page not found" PAGE_NOT_FOUND).
Proof.
  intros Hw Hs.
  unfold result_of, run, Legacy.addConfluenceLabel, try_catch.
  rewrite send_bind. cbn [sent initial ticks app]. fold (add_request pageId label).
  rewrite Hw. cbn [response_status]. now rewrite Hs.
Qed.

(** C5: [addConfluenceLabel] submits the label with the [global]
    prefix, in one POST whose body is the one-element array
    [[{prefix: "global", name: label}]]; when the server rejects the
    call for a page that exists (the rejection is not the 404 of a
    missing page) and the message of its error payload says that the
    page [already has the label], the method throws [LABEL_EXISTS],
    which is not the generic [UNKNOWN] that a rejection with any other
    message gets; the 404 of a missing page is thrown as
    [PAGE_NOT_FOUND]. *)
Theorem addConfluenceLabel_duplicate w pageId label :
  let result := result_of (Legacy.addConfluenceLabel pageId label) w in
  (exists request,
     requests_of (Legacy.addConfluenceLabel pageId label) w = [request]
     /\ method request = POST
     /\ url request = "/content/" ++ pageId ++ "/label"
     /\ data request =
        JS.Arr [JS.Obj [("prefix", JS.Str "global"); ("name", JS.Str label)]])
  /\ (forall m r s,
        transport w [] (add_request pageId label) = Rejected (AxiosError m (Some r)) ->
        payload_message r = JS.Str s ->
        status r <> 404 ->
        Text.occurs_in "already has the label" s ->
        result = Threw (ConfluenceError
                          ("Label " ++ Text.quoted label ++ " already exists on this page")
                          LABEL_EXISTS))
  /\ (forall m r s,
        transport w [] (add_request pageId label) = Rejected (AxiosError m (Some r)) ->
        payload_message r = JS.Str s ->
        status r <> 404 ->
        ~ Text.occurs_in "already has the label" s ->
        result = Threw (ConfluenceError ("Failed to add label: " ++ m) UNKNOWN))
  /\ (forall m r,
        transport w [] (add_request pageId label) = Rejected (AxiosError m (Some r)) ->
        status r = 404 ->
        result = Threw (ConfluenceError "Page not found" PAGE_NOT_FOUND))
  /\ LABEL_EXISTS <> UNKNOWN.
Proof.
  intros result. subst result.
  repeat apply conj.
  - eexists. split; [apply addConfluenceLabel_requests|]. repeat split.
  - intros m r s Hw Hm Hs Hin.
    rewrite (addConfluenceLabel_rejected w pageId label m r s Hw Hm).
    destruct (Z.eqb_spec (status r) 404); [contradiction|].
    apply TextFacts.includes_occurs in Hin. now rewrite Hin.
  - intros m r s Hw Hm Hs Hout.
    rewrite (addConfluenceLabel_rejected w pageId label m r s Hw Hm).
    destruct (Z.eqb_spec (status r) 404); [contradiction|].
    apply TextFacts.includes_absent in Hout. now rewrite Hout.
  - intros m r Hw Hs. exact (addConfluenceLabel_404 w pageId label m r Hw Hs).
  - discriminate.
Qed.

(** C5 on a 400 rejection of a duplicate label. *)
Lemma addConfluenceLabel_duplicate_witness :
  result_of (Legacy.addConfluenceLabel "42" "draft")
    (rejecting 400 "Content 42 already has the label draft") =
  Threw (ConfluenceError ("Label " ++ Text.quoted "draft" ++ " already exists on this page")
           LABEL_EXISTS).
Proof.
  apply (proj1 (proj2 (addConfluenceLabel_duplicate
                         (rejecting 400 "Content 42 already has the label draft")
                         "42" "draft"))
           "Request failed"
           (mkResponse 400 "Error"
              (JS.Obj [("message", JS.Str "Content 42 already has the label draft")]))
           "Content 42 already has the label draft" eq_refl eq_refl).
  - discriminate.
  - exists "Content 42 ", " draft". reflexivity.
Defined.

(* ================================================================== *)
(** ** Page records *)
(* ================================================================== *)

Lemma toPage_run with_body page w s :
  JS.nullish page = false ->
  Legacy.toPage with_body page w s =
  if JS.truthy (createdDate page)
  then (s, Returned (page_record with_body page (createdDate page)))
  else (mkSt (sent s) (S (ticks s)),
        Returned (page_record with_body page (JS.Str (clock w (ticks s))))).
Proof.
  intros Hpage. unfold Legacy.toPage.
  rewrite !(prop_of_object page) by exact Hpage.
  unfold page_record, accountId, createdDate.
  cbv beta iota delta [bind ret now].
  destruct with_body;
    destruct (JS.truthy (JS.opt_member (JS.opt_member page "history") "createdDate"));
    reflexivity.
Qed.

Lemma toPage_page_of with_body page w s :
  JS.nullish page = false ->
  exists record s',
    Legacy.toPage with_body page w s = (s', Returned record)
    /\ sent s' = sent s
    /\ page_of w with_body page record.
Proof.
  intros Hpage. rewrite (toPage_run with_body page w s Hpage).
  destruct (JS.truthy (createdDate page)) eqn:E.
  - exists (page_record with_body page (createdDate page)), s.
    split; [reflexivity|]. split; [reflexivity|].
    exists (createdDate page).
    split; [reflexivity|]. split; [reflexivity|congruence].
  - eexists _, _. split; [reflexivity|]. split; [reflexivity|].
    exists (JS.Str (clock w (ticks s))).
    split; [reflexivity|]. split; [congruence|].
    intros _. now exists (ticks s).
Qed.

Lemma mapM_toPage with_body w items : forall s,
  all_present items ->
  exists records s',
    mapM (Legacy.toPage with_body) items w s = (s', Returned records)
    /\ sent s' = sent s
    /\ Forall2 (page_of w with_body) items records.
Proof.
  induction items as [|item rest IH]; intros s Hall.
  - exists [], s. split; [reflexivity|]. split; [reflexivity|constructor].
  - inversion Hall as [|? ? Hitem Hrest]; subst.
    destruct (toPage_page_of with_body item w s Hitem) as [record [s1 [Hrun [Hsent Hof]]]].
    destruct (IH s1 Hrest) as [records [s2 [Hruns [Hsents Hofs]]]].
    exists (record :: records), s2.
    cbn [mapM]. unfold bind at 1. rewrite Hrun.
    unfold bind at 1. rewrite Hruns. cbn [ret].
    split; [reflexivity|]. split; [congruence|now constructor].
Qed.

(** What every [Page] record holds in its two defaulted fields. *)
Lemma page_of_defaults w with_body upstream page :
  page_of w with_body upstream page ->
  (JS.truthy (accountId upstream) = false ->
     JS.opt_member page "authorId" = JS.Str "unknown")
  /\ (JS.truthy (accountId upstream) = true ->
        JS.opt_member page "authorId" = accountId upstream)
  /\ (JS.truthy (createdDate upstream) = false ->
        exists n, JS.opt_member page "createdAt" = JS.Str (clock w n))
  /\ (JS.truthy (createdDate upstream) = true ->
        JS.opt_member page "createdAt" = createdDate upstream)
  /\ JS.nullish (JS.opt_member page "authorId") = false
  /\ JS.nullish (JS.opt_member page "createdAt") = false.
Proof.
  intros [createdAt [-> [Hdate Hclock]]].
  assert (JS.opt_member (page_record with_body upstream createdAt) "authorId" =
          JS.or (accountId upstream) (JS.Str "unknown")) as Hauthor
    by (destruct with_body; reflexivity).
  assert (JS.opt_member (page_record with_body upstream createdAt) "createdAt" =
          createdAt) as Hcreated
    by (destruct with_body; reflexivity).
  rewrite Hauthor, Hcreated. unfold JS.or.
  repeat apply conj.
  - now intros ->.
  - now intros ->.
  - exact Hclock.
  - exact Hdate.
  - destruct (JS.truthy (accountId upstream)) eqn:E; [|reflexivity].
    now apply truthy_not_empty.
  - destruct (JS.truthy (createdDate upstream)) eqn:E.
    + rewrite (Hdate eq_refl). now apply truthy_not_empty.
    + destruct (Hclock eq_refl) as [n ->]. reflexivity.
Qed.

Lemma member_defined v k x : JS.member v k = Some x -> JS.nullish v = false.
Proof. destruct v; cbn; intros H; try discriminate H; reflexivity. Qed.

(* ================================================================== *)
(** ** Listing the pages of a space *)
(* ================================================================== *)

Lemma getConfluencePages_requests w spaceKey limit start title :
  requests_of (Legacy.getConfluencePages spaceKey limit start title) w =
  [pages_request spaceKey limit start title].
Proof.
  unfold requests_of, run, Legacy.getConfluencePages.
  rewrite sent_send_bind; [reflexivity|].
  intros d. silence.
Qed.

Lemma getConfluencePages_returns w spaceKey limit start title data items :
  transport w [] (pages_request spaceKey limit start title) = Resolved data ->
  JS.member data "results" = Some (JS.Arr items) ->
  all_present items ->
  exists records,
    result_of (Legacy.getConfluencePages spaceKey limit start title) w =
    Returned (JS.Obj [("results", JS.Arr records);
                      ("_links", JS.opt_member data "_links");
                      ("size", JS.opt_member data "size")])
    /\ Forall2 (page_of w true) items records.
Proof.
  intros Hw Hresults Hall.
  unfold result_of, run, Legacy.getConfluencePages.
  rewrite send_bind. cbn [sent initial ticks app].
  fold (pages_request spaceKey limit start title). rewrite Hw.
  pose proof (member_defined data "results" _ Hresults) as Hdata.
  rewrite !(prop_of_object data) by exact Hdata.
  unfold JS.opt_member at 1. rewrite Hresults.
  destruct (mapM_toPage true w items (mkSt [pages_request spaceKey limit start title] 0) Hall)
    as [records [s' [Hrun [_ Hof]]]].
  exists records. split; [|exact Hof].
  cbv beta iota delta [bind ret as_array]. now rewrite Hrun.
Qed.

Lemma pages_cql_unfiltered spaceKey title :
  (forall filter, ~ supplied title filter) ->
  Legacy.pages_cql spaceKey title =
  "space = " ++ Text.dquote ++ spaceKey ++ Text.dquote ++ " AND type = "
  ++ Text.dquote ++ "page" ++ Text.dquote.
Proof.
  intros Hnone. unfold Legacy.pages_cql.
  assert (given title = None) as ->.
  { destruct title as [t|]; [|reflexivity]. cbn.
    destruct (String.eqb_spec t EmptyString); [reflexivity|].
    elim (Hnone t). now split. }
  cbn [Text.join]. unfold Text.quoted.
  rewrite !TextFacts.append_assoc. reflexivity.
Qed.

Lemma pages_cql_filtered spaceKey title filter :
  supplied title filter ->
  Legacy.pages_cql spaceKey title =
  "space = " ++ Text.dquote ++ spaceKey ++ Text.dquote ++ " AND type = "
  ++ Text.dquote ++ "page" ++ Text.dquote
  ++ " AND title ~ " ++ Text.dquote ++ filter ++ Text.dquote.
Proof.
  intros [-> Hfilter]. unfold Legacy.pages_cql. cbn [given].
  destruct (String.eqb_spec filter EmptyString); [contradiction|].
  cbn [Text.join app]. unfold Text.quoted.
  rewrite !TextFacts.append_assoc. reflexivity.
Qed.

(** C8: [getConfluencePages] sends one GET to [/content/search] with
    the [expand] parameter [space,version,body.storage], the given or
    default [limit] and [start], and the structured query
    [space = "spaceKey" AND type = "page"], to which
    [AND title ~ "filter"] is appended exactly when a title filter is
    supplied; when the search answers with a list of pages the method
    returns the paginated response [{results, _links, size}] whose
    results are the [Page] records of these pages, in order. *)
Theorem getConfluencePages_query w spaceKey limit start title :
  let call := Legacy.getConfluencePages spaceKey limit start title in
  let base := "space = " ++ Text.dquote ++ spaceKey ++ Text.dquote ++ " AND type = "
              ++ Text.dquote ++ "page" ++ Text.dquote in
  (exists request,
     requests_of call w = [request]
     /\ method request = GET
     /\ url request = "/content/search"
     /\ JS.lookup "expand" (params request) = JS.Str "space,version,body.storage"
     /\ JS.lookup "limit" (params request) = JS.Num (default_to 25 limit)
     /\ JS.lookup "start" (params request) = JS.Num (default_to 0 start)
     /\ (forall filter, supplied title filter ->
           JS.lookup "cql" (params request) =
           JS.Str (base ++ " AND title ~ " ++ Text.dquote ++ filter ++ Text.dquote))
     /\ ((forall filter, ~ supplied title filter) ->
           JS.lookup "cql" (params request) = JS.Str base))
  /\ (forall data items,
        transport w [] (pages_request spaceKey limit start title) = Resolved data ->
        JS.member data "results" = Some (JS.Arr items) ->
        all_present items ->
        exists records,
          result_of call w =
          Returned (JS.Obj [("results", JS.Arr records);
                            ("_links", JS.opt_member data "_links");
                            ("size", JS.opt_member data "size")])
          /\ Forall2 (page_of w true) items records).
Proof.
  intros call base. subst call base. split.
  - eexists. split; [apply getConfluencePages_requests|].
    cbn [pages_request method url params JS.lookup String.eqb Ascii.eqb Bool.eqb].
    repeat apply conj; try reflexivity.
    + intros filter Hf. rewrite (pages_cql_filtered spaceKey title filter Hf).
      rewrite !TextFacts.append_assoc. reflexivity.
    + intros Hnone. now rewrite (pages_cql_unfiltered spaceKey title Hnone).
  - apply getConfluencePages_returns.
Qed.

(** C8 with and without a title filter. *)
Lemma getConfluencePages_query_witness :
  (exists request,
     requests_of (Legacy.getConfluencePages "DOC" None None (Some "Budget"))
       (answering (JS.Obj [("results", JS.Arr [bare_page "1" "Budget 2024"])])) =
     [request]
     /\ JS.lookup "cql" (params request) =
        JS.Str ("space = " ++ Text.dquote ++ "DOC" ++ Text.dquote ++ " AND type = "
                ++ Text.dquote ++ "page" ++ Text.dquote
                ++ " AND title ~ " ++ Text.dquote ++ "Budget" ++ Text.dquote))
  /\ (exists records,
        result_of (Legacy.getConfluencePages "DOC" None None (Some "Budget"))
          (answering (JS.Obj [("results", JS.Arr [bare_page "1" "Budget 2024"])])) =
        Returned (JS.Obj [("results", JS.Arr records);
                          ("_links", JS.Undefined);
                          ("size", JS.Undefined)])
        /\ length records = 1%nat).
Proof.
  destruct (getConfluencePages_query
              (answering (JS.Obj [("results", JS.Arr [bare_page "1" "Budget 2024"])]))
              "DOC" None None (Some "Budget")) as [[request Hreq] Hret].
  split.
  - exists request. destruct Hreq as [H [_ [_ [_ [_ [_ [Hcql _]]]]]]].
    split; [exact H|]. apply Hcql. split; [reflexivity|discriminate].
  - destruct (Hret _ [bare_page "1" "Budget 2024"] eq_refl eq_refl) as [records [H Hof]].
    + repeat constructor.
    + exists records. split; [exact H|].
      apply Forall2_length in Hof. now rewrite <- Hof.
Defined.

(* ================================================================== *)
(** ** The defaulted fields of every returned page *)
(* ================================================================== *)

Lemma page_of_defaulted w with_body upstream page :
  page_of w with_body upstream page -> defaulted w upstream page.
Proof.
  intros H. destruct (page_of_defaults w with_body upstream page H)
    as [H1 [_ [H2 [_ [H3 H4]]]]].
  repeat split; assumption.
Qed.

Lemma Forall2_defaulted w with_body items records :
  Forall2 (page_of w with_body) items records ->
  Forall2 (defaulted w) items records.
Proof.
  induction 1; constructor; [eapply page_of_defaulted; eassumption|assumption].
Qed.

Lemma searchPageByName_returns w title spaceKey data items :
  transport w [] (name_request title spaceKey) = Resolved data ->
  JS.member data "results" = Some (JS.Arr items) ->
  all_present items ->
  exists records,
    result_of (Legacy.searchPageByName title spaceKey) w = Returned (JS.Arr records)
    /\ Forall2 (page_of w false) items records.
Proof.
  intros Hw Hresults Hall.
  unfold result_of, run, Legacy.searchPageByName, try_catch.
  rewrite send_bind. cbn [sent initial ticks app].
  fold (name_request title spaceKey). rewrite Hw.
  pose proof (member_defined data "results" _ Hresults) as Hdata.
  rewrite !(prop_of_object data) by exact Hdata.
  unfold JS.opt_member at 1. rewrite Hresults.
  destruct (mapM_toPage false w items (mkSt [name_request title spaceKey] 0) Hall)
    as [records [s' [Hrun [_ Hof]]]].
  exists records. split; [|exact Hof].
  cbv beta iota delta [bind ret as_array]. now rewrite Hrun.
Qed.

Lemma getConfluencePage_returns w pageId page :
  transport w [] (page_request pageId) = Resolved page ->
  JS.nullish page = false ->
  exists record,
    result_of (Legacy.getConfluencePage pageId) w = Returned record
    /\ page_of w true page record.
Proof.
  intros Hw Hpage.
  unfold result_of, run, Legacy.getConfluencePage, try_catch.
  rewrite send_bind. cbn [sent initial ticks app].
  fold (page_request pageId). rewrite Hw.
  destruct (toPage_page_of true page w (mkSt [page_request pageId] 0) Hpage)
    as [record [s' [Hrun [_ Hof]]]].
  exists record. rewrite Hrun. now split.
Qed.

Lemma createConfluencePage_returns w spaceKey title content parentId page :
  transport w [] (create_request spaceKey title content parentId) = Resolved page ->
  JS.nullish page = false ->
  exists record,
    result_of (Legacy.createConfluencePage spaceKey title content parentId) w =
    Returned record
    /\ page_of w false page record.
Proof.
  intros Hw Hpage.
  unfold result_of, run.
  change (Legacy.createConfluencePage spaceKey title content parentId)
    with (bind (send (create_request spaceKey title content parentId))
            (fun page => Legacy.toPage false page)).
  rewrite send_bind. cbn [sent initial ticks app]. rewrite Hw.
  destruct (toPage_page_of false page w
              (mkSt [create_request spaceKey title content parentId] 0) Hpage)
    as [record [s' [Hrun [_ Hof]]]].
  exists record. rewrite Hrun. now split.
Qed.

(** The whole run of [updateConfluencePage]. *)
Lemma updateConfluencePage_run w pageId title content version :
  let reread := reread_request pageId in
  let write := write_request pageId title content version (clock w 0) in
  run (Legacy.updateConfluencePage pageId title content version) w =
  match transport w [] reread with
  | Rejected error => (mkSt [reread] 0, Threw error)
  | Resolved currentPage =>
      match transport w [reread] write with
      | Rejected error => (mkSt [reread; write] 1, Threw error)
      | Resolved page => Legacy.toPage false page w (mkSt [reread; write] 1)
      end
  end.
Proof.
  intros reread write. subst reread write.
  unfold run, Legacy.updateConfluencePage.
  rewrite send_bind. cbn [sent initial ticks app]. fold (reread_request pageId).
  destruct (transport w [] (reread_request pageId)) as [currentPage|error];
    [|reflexivity].
  unfold bind at 1. unfold now. cbn [sent ticks].
  rewrite send_bind. cbn [sent ticks app].
  fold (write_request pageId title content version (clock w 0)).
  reflexivity.
Qed.

Lemma updateConfluencePage_returns w pageId title content version currentPage page :
  transport w [] (reread_request pageId) = Resolved currentPage ->
  transport w [reread_request pageId]
    (write_request pageId title content version (clock w 0)) = Resolved page ->
  JS.nullish page = false ->
  exists record,
    result_of (Legacy.updateConfluencePage pageId title content version) w =
    Returned record
    /\ page_of w false page record.
Proof.
  intros Hread Hwrite Hpage.
  unfold result_of. rewrite updateConfluencePage_run. cbv zeta.
  rewrite Hread, Hwrite.
  destruct (toPage_page_of false page w
              (mkSt [reread_request pageId;
                     write_request pageId title content version (clock w 0)] 1) Hpage)
    as [record [s' [Hrun [_ Hof]]]].
  exists record. rewrite Hrun. now split.
Qed.

(** C10: each of the five methods of the legacy client that return
    [Page] records (listing the pages of a space, finding pages by
    title, getting, creating and updating a page) returns, for every
    upstream page, a record whose [authorId] is ['unknown'] when the
    upstream page carries no creator account id and whose [createdAt]
    is the current time when it carries no creation date; both fields
    are present (neither [undefined] nor [null]) on every record. *)
Theorem page_records_defaulted w :
  (forall spaceKey limit start title data items,
     transport w [] (pages_request spaceKey limit start title) = Resolved data ->
     JS.member data "results" = Some (JS.Arr items) ->
     all_present items ->
     exists records,
       result_of (Legacy.getConfluencePages spaceKey limit start title) w =
       Returned (JS.Obj [("results", JS.Arr records);
                         ("_links", JS.opt_member data "_links");
                         ("size", JS.opt_member data "size")])
       /\ Forall2 (defaulted w) items records)
  /\ (forall title spaceKey data items,
        transport w [] (name_request title spaceKey) = Resolved data ->
        JS.member data "results" = Some (JS.Arr items) ->
        all_present items ->
        exists records,
          result_of (Legacy.searchPageByName title spaceKey) w =
          Returned (JS.Arr records)
          /\ Forall2 (defaulted w) items records)
  /\ (forall pageId page,
        transport w [] (page_request pageId) = Resolved page ->
        JS.nullish page = false ->
        exists record,
          result_of (Legacy.getConfluencePage pageId) w = Returned record
          /\ defaulted w page record)
  /\ (forall spaceKey title content parentId page,
        transport w [] (create_request spaceKey title content parentId) =
        Resolved page ->
        JS.nullish page = false ->
        exists record,
          result_of (Legacy.createConfluencePage spaceKey title content parentId) w =
          Returned record
          /\ defaulted w page record)
  /\ (forall pageId title content version currentPage page,
        transport w [] (reread_request pageId) = Resolved currentPage ->
        transport w [reread_request pageId]
          (write_request pageId title content version (clock w 0)) = Resolved page ->
        JS.nullish page = false ->
        exists record,
          result_of (Legacy.updateConfluencePage pageId title content version) w =
          Returned record
          /\ defaulted w page record).
Proof.
  repeat apply conj.
  - intros spaceKey limit start title data items Hw Hres Hall.
    destruct (getConfluencePages_returns w spaceKey limit start title data items
                Hw Hres Hall) as [records [H Hof]].
    exists records. split; [exact H|]. eapply Forall2_defaulted; eassumption.
  - intros title spaceKey data items Hw Hres Hall.
    destruct (searchPageByName_returns w title spaceKey data items Hw Hres Hall)
      as [records [H Hof]].
    exists records. split; [exact H|]. eapply Forall2_defaulted; eassumption.
  - intros pageId page Hw Hpage.
    destruct (getConfluencePage_returns w pageId page Hw Hpage) as [record [H Hof]].
    exists record. split; [exact H|]. eapply page_of_defaulted; eassumption.
  - intros spaceKey title content parentId page Hw Hpage.
    destruct (createConfluencePage_returns w spaceKey title content parentId page
                Hw Hpage) as [record [H Hof]].
    exists record. split; [exact H|]. eapply page_of_defaulted; eassumption.
  - intros pageId title content version currentPage page Hread Hwrite Hpage.
    destruct (updateConfluencePage_returns w pageId title content version
                currentPage page Hread Hwrite Hpage) as [record [H Hof]].
    exists record. split; [exact H|]. eapply page_of_defaulted; eassumption.
Qed.

(** C10 on a page that the server returns without its history. *)
Lemma page_records_defaulted_witness :
  exists record,
    result_of (Legacy.getConfluencePage "1") (answering (bare_page "1" "Budget 2024")) =
    Returned record
    /\ JS.opt_member record "authorId" = JS.Str "unknown"
    /\ exists n, JS.opt_member record "createdAt" = JS.Str (noon n).
Proof.
  destruct (proj1 (proj2 (proj2 (page_records_defaulted
                                   (answering (bare_page "1" "Budget 2024")))))
              "1" (bare_page "1" "Budget 2024") eq_refl eq_refl)
    as [record [H [Hauthor [Hcreated _]]]].
  exists record. split; [exact H|]. split.
  - apply Hauthor. reflexivity.
  - apply Hcreated. reflexivity.
Defined.

(* ================================================================== *)
(** ** Updating a page *)
(* ================================================================== *)

(** The requests of [updateConfluencePage]: the re-read comes first,
    and when it is answered the replacement follows, with a body that
    is a function of the arguments and the clock alone. *)
Lemma updateConfluencePage_requests w pageId title content version :
  requests_of (Legacy.updateConfluencePage pageId title content version) w =
  match transport w [] (reread_request pageId) with
  | Rejected _ => [reread_request pageId]
  | Resolved currentPage =>
      [reread_request pageId;
       write_request pageId title content version (clock w 0)]
  end.
Proof.
  unfold requests_of. rewrite updateConfluencePage_run. cbv zeta.
  destruct (transport w [] (reread_request pageId)); [|reflexivity].
  destruct (transport w _ (write_request pageId title content version (clock w 0)));
    [|reflexivity].
  now rewrite silent_toPage.
Qed.

Lemma update_body_version title content version iso :
  JS.opt_member (JS.opt_member (Legacy.update_body title content version iso) "version")
    "number" = JS.Num (JS.increment version)
  /\ JS.opt_member (JS.opt_member (Legacy.update_body title content version iso) "version")
       "message" = JS.Str ("Updated via MCP at " ++ iso)
  /\ JS.keys (Legacy.update_body title content version iso) =
     ["type"; "title"; "body"; "version"].
Proof. repeat split. Qed.

(** C1 at a page that has a space and a parent: [updateConfluencePage]
    re-reads the page first and then submits version 3 + 1 with the
    dated revision message, but the replacement it submits holds the
    four fields built from its arguments only; the [space] and the
    [ancestors] that the re-read returned are not merged into it. *)
Theorem updateConfluencePage_discards_reread :
  requests_of (Legacy.updateConfluencePage "42" "Roadmap 2025" "<p>Q1</p>" 3) storing =
  [mkRequest GET "/content/42" [] JS.Undefined;
   mkRequest PUT "/content/42" []
     (JS.Obj [("type", JS.Str "page");
              ("title", JS.Str "Roadmap 2025");
              ("body", JS.Obj [("storage",
                                JS.Obj [("value", JS.Str "<p>Q1</p>");
                                        ("representation", JS.Str "storage")])]);
              ("version",
               JS.Obj [("number", JS.Num 4);
                       ("message",
                        JS.Str "Updated via MCP at 2024-01-01T12:00:00.000Z")])])]
  /\ transport storing [] (reread_request "42") = Resolved stored_page
  /\ JS.opt_member stored_page "space" = JS.Obj [("key", JS.Str "DOC")]
  /\ JS.opt_member stored_page "ancestors" = JS.Arr [JS.Obj [("id", JS.Str "7")]]
  /\ Forall (fun request =>
              JS.opt_member (data request) "space" = JS.Undefined
              /\ JS.opt_member (data request) "ancestors" = JS.Undefined)
       (requests_of (Legacy.updateConfluencePage "42" "Roadmap 2025" "<p>Q1</p>" 3)
          storing).
Proof.
  rewrite updateConfluencePage_requests.
  repeat split; repeat constructor.
Qed.

(* ================================================================== *)
(** ** Search: the shape of the results *)
(* ================================================================== *)

Section SearchResults.

Variable this : Legacy.ConfluenceClient.

Lemma or_string_text (text : string) :
  JS.or (JS.Str text) (JS.Str EmptyString) = JS.Str text.
Proof.
  unfold JS.or. cbn [JS.truthy].
  destruct (String.eqb_spec text EmptyString) as [->|]; reflexivity.
Qed.

Lemma or_nullish_empty v :
  JS.nullish v = true -> JS.or v (JS.Str EmptyString) = JS.Str EmptyString.
Proof. destruct v; cbn; intros H; try discriminate H; reflexivity. Qed.

Lemma or_present v : JS.nullish (JS.or v (JS.Str EmptyString)) = false.
Proof.
  unfold JS.or. destruct (JS.truthy v) eqn:E; [|reflexivity].
  now apply truthy_not_empty.
Qed.

Lemma toSearchEntry_entry_of row w s :
  JS.nullish row = false ->
  exists entry,
    Legacy.toSearchEntry this row w s = (s, Returned entry)
    /\ entry_of (Legacy.client_domain this) row entry.
Proof.
  intros Hrow. unfold Legacy.toSearchEntry.
  rewrite !(prop_of_object row) by exact Hrow.
  cbv beta iota delta [bind ret].
  eexists. split; [reflexivity|].
  unfold entry_of, webui.
  cbn [JS.opt_member JS.member JS.lookup String.eqb Ascii.eqb Bool.eqb].
  repeat apply conj.
  - intros link ->. now rewrite or_string_text.
  - intros Hnone. rewrite (or_nullish_empty _ Hnone). reflexivity.
  - intros text ->. apply or_string_text.
  - intros Hnone. now apply or_nullish_empty.
  - apply or_present.
Qed.

Lemma mapM_toSearchEntry w rows : forall s,
  all_present rows ->
  exists entries,
    mapM (Legacy.toSearchEntry this) rows w s = (s, Returned entries)
    /\ Forall2 (entry_of (Legacy.client_domain this)) rows entries.
Proof.
  induction rows as [|row rest IH]; intros s Hall.
  - exists []. split; [reflexivity|constructor].
  - inversion Hall as [|? ? Hrow Hrest]; subst.
    destruct (toSearchEntry_entry_of row w s Hrow) as [entry [Hrun Hof]].
    destruct (IH s Hrest) as [entries [Hruns Hofs]].
    exists (entry :: entries).
    cbn [mapM]. unfold bind at 1. rewrite Hrun.
    unfold bind at 1. rewrite Hruns. cbn [ret].
    split; [reflexivity|now constructor].
Qed.

(** C7: when the search answers with rows, [searchConfluenceContent]
    returns one entry per row, in order; the [url] of an entry is
    [https://{domain}/wiki{webui}] for the [webui] link of its row; its
    [excerpt] is the excerpt of the row when the row has one and the
    empty string when it has none, never [null] or [undefined]; and the
    [_links] of the result hold exactly [next] (the upstream cursor)
    and [base] (the API base URL of the client): no previous cursor. *)
Theorem searchConfluenceContent_results w query limit start data rows :
  transport w [] (search_request query limit start) = Resolved data ->
  JS.member data "results" = Some (JS.Arr rows) ->
  all_present rows ->
  exists entries links,
    result_of (Legacy.searchConfluenceContent this query limit start) w =
    Returned (JS.Obj [("results", JS.Arr entries); ("_links", links)])
    /\ Forall2 (entry_of (Legacy.client_domain this)) rows entries
    /\ JS.keys links = ["next"; "base"]
    /\ JS.opt_member links "next" = JS.opt_member (JS.opt_member data "_links") "next"
    /\ JS.opt_member links "base" =
       JS.Str (Legacy.baseURL this ++ Legacy.apiPath this)
    /\ JS.opt_member links "prev" = JS.Undefined
    /\ JS.opt_member links "previous" = JS.Undefined.
Proof.
  intros Hw Hresults Hall.
  unfold result_of, run, Legacy.searchConfluenceContent, try_catch.
  rewrite send_bind. cbn [sent initial ticks app].
  fold (search_request query limit start). rewrite Hw.
  pose proof (member_defined data "results" _ Hresults) as Hdata.
  rewrite !(prop_of_object data) by exact Hdata.
  unfold JS.opt_member at 1. rewrite Hresults.
  destruct (mapM_toSearchEntry w rows (mkSt [search_request query limit start] 0) Hall)
    as [entries [Hrun Hof]].
  exists entries. eexists.
  cbv beta iota delta [bind ret as_array JS.or JS.truthy]. rewrite Hrun.
  cbn [snd]. split; [reflexivity|]. split; [exact Hof|].
  repeat split.
Qed.

End SearchResults.

(** The API base of a constructed legacy client. *)
Lemma constructor_base config :
  Legacy.client_domain (Legacy.constructor config) = domain config
  /\ Legacy.baseURL (Legacy.constructor config) ++ Legacy.apiPath (Legacy.constructor config)
     = "https://" ++ domain config ++ "/rest/api".
Proof. split; [reflexivity|]. cbn. reflexivity. Qed.

(** C7 on one row with a link and an excerpt. *)
Lemma searchConfluenceContent_results_witness :
  exists entry links,
    result_of (Legacy.searchConfluenceContent (Legacy.constructor example_config)
                 "budget report" None None)
      (answering (JS.Obj [("results", JS.Arr [linked_row])])) =
    Returned (JS.Obj [("results", JS.Arr [entry]); ("_links", links)])
    /\ JS.opt_member entry "url" =
       JS.Str "https://wiki.example.org/wiki/display/DOC/Budget"
    /\ JS.opt_member entry "excerpt" = JS.Str "The budget report for 2024"
    /\ JS.keys links = ["next"; "base"].
Proof.
  destruct (searchConfluenceContent_results (Legacy.constructor example_config)
              (answering (JS.Obj [("results", JS.Arr [linked_row])]))
              "budget report" None None
              (JS.Obj [("results", JS.Arr [linked_row])]) [linked_row]
              eq_refl eq_refl)
    as [entries [links [Hres [Hof [Hkeys _]]]]].
  - repeat constructor.
  - inversion Hof as [|? entry ? rest Hentry Hrest]; subst.
    inversion Hrest; subst.
    exists entry, links. split; [exact Hres|].
    destruct Hentry as [Hurl [_ [Hexcerpt _]]].
    split; [exact (Hurl "/display/DOC/Budget" eq_refl)|].
    split; [exact (Hexcerpt "The budget report for 2024" eq_refl)|exact Hkeys].
Defined.

(* ================================================================== *)
(** ** The typed-resource client: where its requests go *)
(* ================================================================== *)

Lemma typed_base auth :
  instance_baseURL (Typed.client (Typed.constructor auth)) =
  "https://" ++ domain auth ++ "/rest/api".
Proof. reflexivity. Qed.

(** C9, as the claim has it, fails: the base URL of the typed client is
    [https://{domain}/rest/api], so the listing of pages goes to
    [https://wiki.example.org/rest/api/pages], and no [/api/v2] occurs
    in either. *)
Lemma typed_base_not_v2 :
  instance_baseURL (Typed.client (Typed.constructor example_config)) =
  "https://wiki.example.org/rest/api"
  /\ ~ Text.occurs_in "/api/v2"
         (instance_baseURL (Typed.client (Typed.constructor example_config)))
  /\ map (full_url (Typed.client (Typed.constructor example_config)))
       (requests_of (Typed.getPages "DOC" None None) (answering JS.Null)) =
     ["https://wiki.example.org/rest/api/pages"]
  /\ Forall (fun address => ~ Text.occurs_in "/api/v2" address)
       (map (full_url (Typed.client (Typed.constructor example_config)))
          (requests_of (Typed.getPages "DOC" None None) (answering JS.Null))).
Proof.
  split; [reflexivity|].
  split; [apply TextFacts.includes_absent; reflexivity|].
  split; [reflexivity|].
  repeat constructor. apply TextFacts.includes_absent. reflexivity.
Qed.

(** The requests of a method that is one [send] and nothing else. *)
Lemma requests_of_send r w : requests_of (send r) w = [r].
Proof.
  unfold requests_of, run, send. cbn [sent initial ticks app].
  destruct (transport w [] r); reflexivity.
Qed.

Lemma requests_of_send_bind A r (k : value -> M A) w :
  (forall d, silent (k d)) -> requests_of (bind (send r) k) w = [r].
Proof. intros Hk. unfold requests_of, run. now rewrite sent_send_bind. Qed.

(** C9, amended: the typed client sends all its requests to the base
    [https://{domain}/rest/api], the base the legacy client uses too,
    and under it addresses the resources [/spaces], [/pages],
    [/pages/{id}/body] with the parameter [body_format = storage], and
    [/pages/{id}/labels]; a label is added by posting the single object
    [{name}] and removed by a DELETE on [/pages/{id}/labels/{name}]. *)
Theorem typed_client_requests auth w :
  let base := "https://" ++ domain auth ++ "/rest/api" in
  instance_baseURL (Typed.client (Typed.constructor auth)) = base
  /\ instance_baseURL (Legacy.client (Legacy.constructor auth)) = base
  /\ (forall limit start,
        requests_of (Typed.getSpaces limit start) w =
        [mkRequest GET "/spaces"
           [("limit", JS.Num (default_to 25 limit));
            ("start", JS.Num (default_to 0 start))] JS.Undefined])
  /\ (forall spaceId,
        requests_of (Typed.getSpace spaceId) w =
        [mkRequest GET ("/spaces/" ++ spaceId) [] JS.Undefined])
  /\ (forall spaceId limit start,
        requests_of (Typed.getPages spaceId limit start) w =
        [mkRequest GET "/pages"
           [("spaceId", JS.Str spaceId);
            ("limit", JS.Num (default_to 25 limit));
            ("start", JS.Num (default_to 0 start));
            ("status", JS.Str "current")] JS.Undefined])
  /\ (forall pageId,
        requests_of (Typed.getPage pageId) w =
        [mkRequest GET ("/pages/" ++ pageId) [] JS.Undefined])
  /\ (forall pageId,
        requests_of (Typed.getPageContent pageId) w =
        [mkRequest GET ("/pages/" ++ pageId ++ "/body")
           [("body_format", JS.Str "storage")] JS.Undefined])
  /\ (forall spaceId title content parentId,
        exists body,
          requests_of (Typed.createPage spaceId title content parentId) w =
          [mkRequest POST "/pages" [] body])
  /\ (forall pageId title content version,
        exists body,
          requests_of (Typed.updatePage pageId title content version) w =
          [mkRequest PUT ("/pages/" ++ pageId) [] body]
          /\ JS.opt_member (JS.opt_member body "version") "number" =
             JS.Num (JS.increment version)
          /\ (Z.abs (version + 1) <= 2 ^ 53 ->
              JS.opt_member (JS.opt_member body "version") "number" =
              JS.Num (version + 1)))
  /\ (forall query limit start,
        requests_of (Typed.searchContent query limit start) w =
        [mkRequest GET "/search"
           [("cql", JS.Str query);
            ("limit", JS.Num (default_to 25 limit));
            ("start", JS.Num (default_to 0 start))] JS.Undefined])
  /\ (forall pageId,
        requests_of (Typed.getLabels pageId) w =
        [mkRequest GET ("/pages/" ++ pageId ++ "/labels") [] JS.Undefined])
  /\ (forall pageId label,
        requests_of (Typed.addLabel pageId label) w =
        [mkRequest POST ("/pages/" ++ pageId ++ "/labels") []
           (JS.Obj [("name", JS.Str label)])])
  /\ (forall pageId label,
        requests_of (Typed.removeLabel pageId label) w =
        [mkRequest DELETE ("/pages/" ++ pageId ++ "/labels/" ++ label) []
           JS.Undefined]).
Proof.
  intros base. subst base.
  repeat apply conj.
  - reflexivity.
  - cbn. reflexivity.
  - intros limit start. apply requests_of_send.
  - intros spaceId. apply requests_of_send.
  - intros spaceId limit start. apply requests_of_send.
  - intros pageId. apply requests_of_send.
  - intros pageId. apply requests_of_send.
  - intros spaceId title content parentId. eexists. apply requests_of_send.
  - intros pageId title content version. eexists.
    unfold Typed.updatePage, requests_of, run, bind, now, send.
    cbn [sent initial ticks app].
    match goal with |- context [transport w [] ?r] => destruct (transport w [] r) end;
      (split; [reflexivity|]); (split; [reflexivity|]);
      intros Hversion;
      change (JS.Num (JS.increment version) = JS.Num (version + 1));
      now rewrite (increment_exact version Hversion).
  - intros query limit start. apply requests_of_send.
  - intros pageId. apply requests_of_send.
  - intros pageId label. apply requests_of_send.
  - intros pageId label. unfold Typed.removeLabel.
    apply requests_of_send_bind. intros d. silence.
Qed.

(* ================================================================== *)
(** ** Why the statements above carry their hypotheses *)
(* ================================================================== *)

(** A response without any data is not a page: reading its [body]
    is a [TypeError], which the handler of [getPageContent] rethrows. *)
Lemma getPageContent_no_data pageId :
  result_of (Legacy.getPageContent pageId) (answering JS.Null) = Threw TypeError.
Proof.
  unfold result_of. rewrite getPageContent_run. reflexivity.
Qed.

(** An error payload whose [message] is not text has no [includes]
    to call: the handler of [removeConfluenceLabel] fails with a
    [TypeError] of its own. *)
Lemma removeConfluenceLabel_message_not_text :
  result_of (Legacy.removeConfluenceLabel "42" "draft")
    (mkWorld
       (fun _ _ =>
          Rejected (AxiosError "Request failed"
                      (Some (mkResponse 404 "Error"
                               (JS.Obj [("message", JS.Num 404)])))))
       noon) =
  Threw TypeError.
Proof. reflexivity. Qed.

(** An empty title is no filter for [getConfluencePages]. *)
Lemma pages_cql_empty_title spaceKey :
  Legacy.pages_cql spaceKey (Some EmptyString) = Legacy.pages_cql spaceKey None.
Proof. reflexivity. Qed.

(* ================================================================== *)
(** * Further properties of the legacy client *)
(* ================================================================== *)

(** ** What the reading methods send *)

Lemma getConfluenceSpaces_requests w limit start :
  requests_of (Legacy.getConfluenceSpaces limit start) w = [spaces_request limit start].
Proof.
  unfold requests_of, run, Legacy.getConfluenceSpaces.
  rewrite sent_send_bind; [reflexivity|]. intros d. silence.
Qed.

Lemma getConfluenceSpace_requests w spaceKey :
  requests_of (Legacy.getConfluenceSpace spaceKey) w = [space_request spaceKey].
Proof.
  unfold requests_of, run, Legacy.getConfluenceSpace.
  rewrite sent_send_bind; [reflexivity|]. intros d. silence.
Qed.

Lemma getConfluenceLabels_requests w pageId :
  requests_of (Legacy.getConfluenceLabels pageId) w = [labels_request pageId].
Proof.
  unfold requests_of, run, Legacy.getConfluenceLabels.
  rewrite sent_send_bind; [reflexivity|]. intros d. silence.
Qed.

Lemma searchPageByName_requests w title spaceKey :
  requests_of (Legacy.searchPageByName title spaceKey) w = [name_request title spaceKey].
Proof.
  unfold requests_of, run, Legacy.searchPageByName.
  rewrite sent_try_send_bind; [reflexivity| |].
  - intros d. silence.
  - intros e. silence.
Qed.

Lemma getConfluencePage_requests w pageId :
  requests_of (Legacy.getConfluencePage pageId) w = [page_request pageId].
Proof.
  unfold requests_of, run, Legacy.getConfluencePage.
  rewrite sent_try_send_bind; [reflexivity| |].
  - intros d. silence.
  - intros e. silence.
Qed.

Lemma getPageContent_requests w pageId :
  requests_of (Legacy.getPageContent pageId) w = [content_request pageId].
Proof. unfold requests_of. now rewrite getPageContent_run. Qed.

(** X1: every reading method of the legacy client (the connection
    check, the listing and the lookup of spaces, the listing of pages,
    the search by title, the two page reads, the content search and
    the listing of labels) sends exactly one request, whatever the
    server answers, and that request is a GET. *)
Theorem reading_methods_only_get this w :
  one_get Legacy.verifyApiConnection w
  /\ (forall limit start, one_get (Legacy.getConfluenceSpaces limit start) w)
  /\ (forall spaceKey, one_get (Legacy.getConfluenceSpace spaceKey) w)
  /\ (forall spaceKey limit start title,
        one_get (Legacy.getConfluencePages spaceKey limit start title) w)
  /\ (forall title spaceKey, one_get (Legacy.searchPageByName title spaceKey) w)
  /\ (forall pageId, one_get (Legacy.getPageContent pageId) w)
  /\ (forall pageId, one_get (Legacy.getConfluencePage pageId) w)
  /\ (forall query limit start,
        one_get (Legacy.searchConfluenceContent this query limit start) w)
  /\ (forall pageId, one_get (Legacy.getConfluenceLabels pageId) w).
Proof.
  unfold one_get. repeat apply conj; intros; eexists.
  - split; [unfold requests_of; rewrite verifyApiConnection_run|]; reflexivity.
  - split; [apply getConfluenceSpaces_requests|reflexivity].
  - split; [apply getConfluenceSpace_requests|reflexivity].
  - split; [apply getConfluencePages_requests|reflexivity].
  - split; [apply searchPageByName_requests|reflexivity].
  - split; [apply getPageContent_requests|reflexivity].
  - split; [apply getConfluencePage_requests|reflexivity].
  - split; [apply searchConfluenceContent_requests|reflexivity].
  - split; [apply getConfluenceLabels_requests|reflexivity].
Qed.

(** ** Updating: what a failure leaves behind *)

(** X2: [updateConfluencePage] stops at a failed re-read: the error of
    the GET is thrown unchanged and no PUT is sent.  When the re-read
    succeeds and the PUT is rejected (a stale version, for one), the
    rejection is thrown unchanged too, after exactly these two
    requests: the method has no handler, so a rejection is never
    turned into a [ConfluenceError]. *)
Theorem updateConfluencePage_failures w pageId title content version error :
  let call := Legacy.updateConfluencePage pageId title content version in
  let reread := reread_request pageId in
  let write := write_request pageId title content version (clock w 0) in
  (transport w [] reread = Rejected error ->
     result_of call w = Threw error
     /\ requests_of call w = [reread])
  /\ (forall currentPage,
        transport w [] reread = Resolved currentPage ->
        transport w [reread] write = Rejected error ->
        result_of call w = Threw error
        /\ requests_of call w = [reread; write]).
Proof.
  intros call reread write. subst call reread write.
  unfold result_of, requests_of. rewrite updateConfluencePage_run. cbv zeta.
  split.
  - intros ->. split; reflexivity.
  - intros currentPage -> ->. split; reflexivity.
Qed.

(** X2 on a server that accepts the re-read and rejects the write with
    a 409. *)
Lemma updateConfluencePage_failures_witness :
  result_of (Legacy.updateConfluencePage "42" "Roadmap" "<p>Q1</p>" 3)
    (failing_after stored_page conflict) = Threw conflict
  /\ length (requests_of (Legacy.updateConfluencePage "42" "Roadmap" "<p>Q1</p>" 3)
               (failing_after stored_page conflict)) = 2%nat.
Proof.
  destruct (proj2 (updateConfluencePage_failures
                     (failing_after stored_page conflict)
                     "42" "Roadmap" "<p>Q1</p>" 3 conflict)
              stored_page eq_refl eq_refl) as [Hresult Hrequests].
  split; [exact Hresult|]. now rewrite Hrequests.
Defined.

(** ** Creating a page *)

Lemma createConfluencePage_send spaceKey title content parentId :
  Legacy.createConfluencePage spaceKey title content parentId =
  bind (send (create_request spaceKey title content parentId))
    (fun page => Legacy.toPage false page).
Proof. reflexivity. Qed.

Lemma create_body_ancestors spaceKey title content parentId :
  JS.opt_member (create_body spaceKey title content parentId) "ancestors" =
  match given parentId with
  | Some parent => JS.Arr [JS.Obj [("id", JS.Str parent)]]
  | None => JS.Undefined
  end.
Proof. unfold create_body. destruct (given parentId); reflexivity. Qed.

(** X3: [createConfluencePage] sends exactly one request, a POST to
    [/content] whose body is a page with the given title, the space
    key, and the content as storage markup; the body names the parent
    as its one ancestor when a non-empty [parentId] is given and has no
    [ancestors] field at all otherwise; a rejection of the POST is
    thrown unchanged. *)
Theorem createConfluencePage_request w spaceKey title content parentId :
  let call := Legacy.createConfluencePage spaceKey title content parentId in
  exists body,
    requests_of call w = [mkRequest POST "/content" [] body]
    /\ JS.opt_member body "type" = JS.Str "page"
    /\ JS.opt_member body "title" = JS.Str title
    /\ JS.opt_member (JS.opt_member body "space") "key" = JS.Str spaceKey
    /\ storage_value body = JS.Str content
    /\ JS.opt_member (JS.opt_member (JS.opt_member body "body") "storage")
         "representation" = JS.Str "storage"
    /\ (forall parent, parentId = Some parent -> parent <> EmptyString ->
          JS.opt_member body "ancestors" = JS.Arr [JS.Obj [("id", JS.Str parent)]])
    /\ (parentId = None \/ parentId = Some EmptyString ->
          JS.keys body = ["type"; "title"; "space"; "body"])
    /\ (forall error,
          transport w [] (mkRequest POST "/content" [] body) = Rejected error ->
          result_of call w = Threw error).
Proof.
  intros call. subst call.
  exists (create_body spaceKey title content parentId).
  rewrite createConfluencePage_send.
  repeat apply conj; try reflexivity.
  - unfold requests_of, run. rewrite sent_send_bind; [reflexivity|].
    intros d. silence.
  - intros parent -> Hparent. rewrite create_body_ancestors. cbn [given].
    destruct (String.eqb_spec parent EmptyString); [contradiction|reflexivity].
  - intros [->| ->]; reflexivity.
  - intros error Hw. unfold result_of, run. rewrite send_bind.
    cbn [sent initial]. unfold create_request. now rewrite Hw.
Qed.

(** X3 with a parent page. *)
Lemma createConfluencePage_request_witness :
  exists body,
    requests_of (Legacy.createConfluencePage "DOC" "Notes" "<p>hi</p>" (Some "7"))
      (answering (bare_page "8" "Notes")) = [mkRequest POST "/content" [] body]
    /\ JS.opt_member body "ancestors" = JS.Arr [JS.Obj [("id", JS.Str "7")]].
Proof.
  destruct (createConfluencePage_request (answering (bare_page "8" "Notes"))
              "DOC" "Notes" "<p>hi</p>" (Some "7"))
    as [body [Hreq [_ [_ [_ [_ [_ [Hparent _]]]]]]]].
  exists body. split; [exact Hreq|].
  apply (Hparent "7" eq_refl). discriminate.
Defined.

(** ** Writing, then reading back *)

(** X4: the document a write submits reads back through
    [getPageContent]: when the server answers the content request with
    the body that [createConfluencePage] or [updateConfluencePage]
    sent, [getPageContent] returns the submitted content, unless that
    content is the empty string, in which case it throws
    [EMPTY_CONTENT]. *)
Theorem written_content_read_back w pageId document content :
  transport w [] (content_request pageId) = Resolved document ->
  (exists spaceKey title parentId,
     document = create_body spaceKey title content parentId)
  \/ (exists title version iso,
        document = Legacy.update_body title content version iso) ->
  result_of (Legacy.getPageContent pageId) w =
  if String.eqb content EmptyString
  then Threw (ConfluenceError "Page content is empty or not accessible" EMPTY_CONTENT)
  else Returned (JS.Str content).
Proof.
  intros Hw Hdoc. unfold result_of. rewrite getPageContent_run, Hw. cbn [snd].
  assert (JS.member document "body" = Some (Legacy.storage_body content)
          /\ storage_value document = JS.Str content) as [Hbody Hvalue].
  { destruct Hdoc as [[spaceKey [title [parentId ->]]]|[title [version [iso ->]]]];
      split; reflexivity. }
  unfold content_outcome. rewrite Hbody, Hvalue. cbn [JS.truthy].
  destruct (String.eqb content EmptyString); reflexivity.
Qed.

(** X4 on an update. *)
Lemma written_content_read_back_witness :
  result_of (Legacy.getPageContent "42")
    (answering (Legacy.update_body "Roadmap" "<p>Q1</p>" 3 (noon 0))) =
  Returned (JS.Str "<p>Q1</p>").
Proof.
  apply (written_content_read_back
           (answering (Legacy.update_body "Roadmap" "<p>Q1</p>" 3 (noon 0)))
           "42" (Legacy.update_body "Roadmap" "<p>Q1</p>" 3 (noon 0)) "<p>Q1</p>"
           eq_refl).
  right. exists "Roadmap", 3, (noon 0). reflexivity.
Defined.

(** ** Reading one page: what is thrown *)





(** ** Searching by title *)

Lemma name_cql_unscoped title spaceKey :
  (forall key, ~ supplied spaceKey key) ->
  Legacy.name_cql title spaceKey =
  "title ~ " ++ Text.dquote ++ title ++ Text.dquote ++ " AND type = "
  ++ Text.dquote ++ "page" ++ Text.dquote.
Proof.
  intros Hnone. unfold Legacy.name_cql.
  assert (given spaceKey = None) as ->.
  { destruct spaceKey as [k|]; [|reflexivity]. cbn.
    destruct (String.eqb_spec k EmptyString); [reflexivity|].
    elim (Hnone k). now split. }
  cbn [Text.join]. unfold Text.quoted.
  rewrite !TextFacts.append_assoc. reflexivity.
Qed.

Lemma name_cql_scoped title spaceKey key :
  supplied spaceKey key ->
  Legacy.name_cql title spaceKey =
  "title ~ " ++ Text.dquote ++ title ++ Text.dquote ++ " AND type = "
  ++ Text.dquote ++ "page" ++ Text.dquote
  ++ " AND space = " ++ Text.dquote ++ key ++ Text.dquote.
Proof.
  intros [-> Hkey]. unfold Legacy.name_cql. cbn [given].
  destruct (String.eqb_spec key EmptyString); [contradiction|].
  cbn [Text.join app]. unfold Text.quoted.
  rewrite !TextFacts.append_assoc. reflexivity.
Qed.

Lemma searchPageByName_rejected w title spaceKey error :
  transport w [] (name_request title spaceKey) = Rejected error ->
  result_of (Legacy.searchPageByName title spaceKey) w =
  match error with
  | AxiosError m _ =>
      Threw (ConfluenceError ("Failed to search for page: " ++ m) UNKNOWN)
  | _ => Threw error
  end.
Proof.
  intros Hw.
  unfold result_of, run, Legacy.searchPageByName, try_catch.
  rewrite send_bind. cbn [sent initial ticks app].
  fold (name_request title spaceKey). rewrite Hw.
  destruct error; reflexivity.
Qed.

(** X6: [searchPageByName] sends one search for at most 10 results
    with the query [title ~ "title" AND type = "page"], followed by
    [AND space = "key"] exactly when a non-empty space key is given;
    every axios rejection of it, whatever its status, is thrown as the
    [ConfluenceError] [UNKNOWN] that quotes the axios message, and any
    other error is thrown unchanged. *)
Theorem searchPageByName_behaviour w title spaceKey :
  let call := Legacy.searchPageByName title spaceKey in
  let base := "title ~ " ++ Text.dquote ++ title ++ Text.dquote ++ " AND type = "
              ++ Text.dquote ++ "page" ++ Text.dquote in
  (exists request,
     requests_of call w = [request]
     /\ url request = "/content/search"
     /\ JS.lookup "limit" (params request) = JS.Num 10
     /\ JS.lookup "expand" (params request) = JS.Str "space,version"
     /\ (forall key, supplied spaceKey key ->
           JS.lookup "cql" (params request) =
           JS.Str (base ++ " AND space = " ++ Text.dquote ++ key ++ Text.dquote))
     /\ ((forall key, ~ supplied spaceKey key) ->
           JS.lookup "cql" (params request) = JS.Str base))
  /\ (forall m r,
        transport w [] (name_request title spaceKey) = Rejected (AxiosError m r) ->
        result_of call w =
        Threw (ConfluenceError ("Failed to search for page: " ++ m) UNKNOWN))
  /\ (forall error,
        transport w [] (name_request title spaceKey) = Rejected error ->
        (forall m r, error <> AxiosError m r) ->
        result_of call w = Threw error).
Proof.
  intros call base. subst call base. repeat apply conj.
  - eexists. split; [apply searchPageByName_requests|].
    cbn [name_request method url params JS.lookup String.eqb Ascii.eqb Bool.eqb].
    repeat apply conj; try reflexivity.
    + intros key Hkey. rewrite (name_cql_scoped title spaceKey key Hkey).
      rewrite !TextFacts.append_assoc. reflexivity.
    + intros Hnone. now rewrite (name_cql_unscoped title spaceKey Hnone).
  - intros m r Hw. now rewrite (searchPageByName_rejected w title spaceKey _ Hw).
  - intros error Hw Hother.
    rewrite (searchPageByName_rejected w title spaceKey _ Hw).
    destruct error as [m r| | |]; try reflexivity. now elim (Hother m r).
Qed.

(** X6 on a forbidden search scoped to a space. *)
Lemma searchPageByName_behaviour_witness :
  result_of (Legacy.searchPageByName "Budget" (Some "DOC")) (rejecting 403 "Forbidden") =
  Threw (ConfluenceError "Failed to search for page: Request failed" UNKNOWN)
  /\ exists request,
       requests_of (Legacy.searchPageByName "Budget" (Some "DOC"))
         (rejecting 403 "Forbidden") = [request]
       /\ JS.lookup "cql" (params request) =
          JS.Str ("title ~ " ++ Text.dquote ++ "Budget" ++ Text.dquote
                  ++ " AND type = " ++ Text.dquote ++ "page" ++ Text.dquote
                  ++ " AND space = " ++ Text.dquote ++ "DOC" ++ Text.dquote).
Proof.
  destruct (searchPageByName_behaviour (rejecting 403 "Forbidden") "Budget" (Some "DOC"))
    as [[request [Hreq [_ [_ [_ [Hscoped _]]]]]] [Haxios _]].
  split.
  - exact (Haxios _ _ eq_refl).
  - exists request. split; [exact Hreq|].
    apply Hscoped. split; [reflexivity|discriminate].
Defined.

(** ** Content search: failures and missing results *)

(** X7: every axios rejection of the search request, whatever its
    status and with or without a response, is thrown by
    [searchConfluenceContent] as [SEARCH_FAILED] with the axios
    message; a response whose [results] field is missing, [null] or
    otherwise falsy gives an empty result list, not an error; and a
    response without any data gives the [TypeError] of reading it, not
    [SEARCH_FAILED]. *)
Theorem searchConfluenceContent_failures this w query limit start :
  let call := Legacy.searchConfluenceContent this query limit start in
  let answer := transport w [] (search_request query limit start) in
  (forall m r, answer = Rejected (AxiosError m r) ->
     result_of call w =
     Threw (ConfluenceError ("Failed to search content: " ++ m) SEARCH_FAILED))
  /\ (forall data results,
        answer = Resolved data ->
        JS.member data "results" = Some results ->
        JS.truthy results = false ->
        result_of call w =
        Returned (JS.Obj [("results", JS.Arr []);
                          ("_links",
                           JS.Obj [("next",
                                    JS.opt_member (JS.opt_member data "_links") "next");
                                   ("base",
                                    JS.Str (Legacy.baseURL this ++ Legacy.apiPath this))])]))
  /\ (forall data, answer = Resolved data -> JS.nullish data = true ->
        result_of call w = Threw TypeError).
Proof.
  intros call answer. subst call answer.
  unfold result_of, run, Legacy.searchConfluenceContent, try_catch.
  rewrite send_bind. cbn [sent initial ticks app].
  fold (search_request query limit start).
  repeat apply conj.
  - intros m r ->. reflexivity.
  - intros data results -> Hresults Hfalsy.
    pose proof (member_defined data "results" _ Hresults) as Hdata.
    rewrite !(prop_of_object data) by exact Hdata.
    unfold JS.opt_member at 1. rewrite Hresults.
    cbv beta iota delta [bind ret JS.or]. rewrite Hfalsy. reflexivity.
  - intros data -> Hdata. destruct data; try discriminate Hdata; reflexivity.
Qed.

(** X7 on a server that is down and on an answer without results. *)
Lemma searchConfluenceContent_failures_witness :
  result_of (Legacy.searchConfluenceContent (Legacy.constructor example_config)
               "budget" None None)
    (mkWorld (fun _ _ => Rejected unreachable) noon) =
  Threw (ConfluenceError "Failed to search content: connect ECONNREFUSED" SEARCH_FAILED)
  /\ exists links,
       result_of (Legacy.searchConfluenceContent (Legacy.constructor example_config)
                    "budget" None None)
         (answering (JS.Obj [("size", JS.Num 0)])) =
       Returned (JS.Obj [("results", JS.Arr []); ("_links", links)]).
Proof.
  split.
  - exact (proj1 (searchConfluenceContent_failures (Legacy.constructor example_config)
                    (mkWorld (fun _ _ => Rejected unreachable) noon)
                    "budget" None None)
             "connect ECONNREFUSED" None eq_refl).
  - eexists.
    exact (proj1 (proj2 (searchConfluenceContent_failures
                           (Legacy.constructor example_config)
                           (answering (JS.Obj [("size", JS.Num 0)]))
                           "budget" None None))
             (JS.Obj [("size", JS.Num 0)]) JS.Undefined eq_refl eq_refl eq_refl).
Defined.

(** ** Page content: every failure of the transport *)

(** X8: whatever axios rejection [getPageContent] meets, it throws a
    [ConfluenceError], and the code tells the status: [PAGE_NOT_FOUND]
    exactly for a 404, [INSUFFICIENT_PERMISSIONS] exactly for a 403,
    and [UNKNOWN] with the axios message for every other status and
    for a rejection without a response. *)
Theorem getPageContent_classifies w pageId m response :
  transport w [] (content_request pageId) = Rejected (AxiosError m response) ->
  exists text code,
    result_of (Legacy.getPageContent pageId) w = Threw (ConfluenceError text code)
    /\ (code = PAGE_NOT_FOUND <-> exists r, response = Some r /\ status r = 404)
    /\ (code = INSUFFICIENT_PERMISSIONS <-> exists r, response = Some r /\ status r = 403)
    /\ (code = PAGE_NOT_FOUND \/ code = INSUFFICIENT_PERMISSIONS
        \/ (code = UNKNOWN /\ text = "Failed to get page content: " ++ m)).
Proof.
  intros Hw. unfold result_of. rewrite getPageContent_run, Hw.
  cbn [snd content_outcome].
  destruct response as [r|].
  - destruct (Z.eqb_spec (status r) 404) as [H404|H404].
    + do 2 eexists. split; [reflexivity|]. repeat split; try discriminate; auto.
      * now exists r.
      * intros [r' [Hr Hs]]. injection Hr as <-. lia.
    + destruct (Z.eqb_spec (status r) 403) as [H403|H403].
      * do 2 eexists. split; [reflexivity|]. repeat split; try discriminate; auto.
        -- intros [r' [Hr Hs]]. injection Hr as <-. contradiction.
        -- now exists r.
      * do 2 eexists. split; [reflexivity|]. repeat split; try discriminate; auto.
        -- intros [r' [Hr Hs]]. injection Hr as <-. contradiction.
        -- intros [r' [Hr Hs]]. injection Hr as <-. contradiction.
  - do 2 eexists. split; [reflexivity|]. repeat split; try discriminate; auto.
    + intros [r [Hr _]]. discriminate Hr.
    + intros [r [Hr _]]. discriminate Hr.
Qed.

(** X8 on a server that cannot be reached. *)
Lemma getPageContent_classifies_witness :
  result_of (Legacy.getPageContent "42")
    (mkWorld (fun _ _ => Rejected unreachable) noon) =
  Threw (ConfluenceError "Failed to get page content: connect ECONNREFUSED" UNKNOWN).
Proof.
  destruct (getPageContent_classifies
              (mkWorld (fun _ _ => Rejected unreachable) noon) "42"
              "connect ECONNREFUSED" None eq_refl)
    as [text [code [Hresult [H404 [H403 Hcode]]]]].
  rewrite Hresult.
  destruct Hcode as [Hcode|[Hcode|[-> ->]]].
  - apply H404 in Hcode. destruct Hcode as [r [Hr _]]. discriminate Hr.
  - apply H403 in Hcode. destruct Hcode as [r [Hr _]]. discriminate Hr.
  - reflexivity.
Defined.

(** ** Labels: the remaining outcomes *)

(** X9: on success [addConfluenceLabel] returns the first label of the
    answer, and [undefined] when the answer lists none; an answer
    without a [results] list makes it throw a [TypeError]; a rejection
    without a response (the server was not reached) is thrown as
    [UNKNOWN] with the axios message. *)
Theorem addConfluenceLabel_outcomes w pageId label :
  let call := Legacy.addConfluenceLabel pageId label in
  let answer := transport w [] (add_request pageId label) in
  (forall data first rest,
     answer = Resolved data ->
     JS.member data "results" = Some (JS.Arr (first :: rest)) ->
     result_of call w = Returned first)
  /\ (forall data,
        answer = Resolved data ->
        JS.member data "results" = Some (JS.Arr []) ->
        result_of call w = Returned JS.Undefined)
  /\ (forall data results,
        answer = Resolved data ->
        JS.member data "results" = Some results ->
        JS.nullish results = true ->
        result_of call w = Threw TypeError)
  /\ (forall m,
        answer = Rejected (AxiosError m None) ->
        result_of call w =
        Threw (ConfluenceError ("Failed to add label: " ++ m) UNKNOWN)).
Proof.
  intros call answer. subst call answer.
  unfold result_of, run, Legacy.addConfluenceLabel, try_catch.
  rewrite send_bind. cbn [sent initial ticks app]. fold (add_request pageId label).
  repeat apply conj.
  - intros data first rest -> Hresults. unfold bind, prop. now rewrite Hresults.
  - intros data -> Hresults. unfold bind, prop. now rewrite Hresults.
  - intros data results -> Hresults Hnull. unfold bind, prop. rewrite Hresults.
    destruct results; try discriminate Hnull; reflexivity.
  - intros m ->. reflexivity.
Qed.

(** X9 on an answer that lists no label. *)
Lemma addConfluenceLabel_outcomes_witness :
  result_of (Legacy.addConfluenceLabel "42" "draft")
    (answering (JS.Obj [("results", JS.Arr [])])) = Returned JS.Undefined.
Proof.
  exact (proj1 (proj2 (addConfluenceLabel_outcomes
                         (answering (JS.Obj [("results", JS.Arr [])])) "42" "draft"))
           (JS.Obj [("results", JS.Arr [])]) eq_refl eq_refl).
Defined.

(** X10: [removeConfluenceLabel] names the label in the [name]
    parameter of a DELETE on the label collection of the page, returns
    nothing when the DELETE is answered, and throws [UNKNOWN] with the
    axios message for every rejection that is not a 404, whatever its
    payload says, and for a rejection without a response. *)
Theorem removeConfluenceLabel_outcomes w pageId label :
  let call := Legacy.removeConfluenceLabel pageId label in
  let answer := transport w [] (remove_request pageId label) in
  requests_of call w =
    [mkRequest DELETE ("/content/" ++ pageId ++ "/label") [("name", JS.Str label)]
       JS.Undefined]
  /\ (forall data, answer = Resolved data -> result_of call w = Returned tt)
  /\ (forall m r, answer = Rejected (AxiosError m (Some r)) -> status r <> 404 ->
        result_of call w =
        Threw (ConfluenceError ("Failed to remove label: " ++ m) UNKNOWN))
  /\ (forall m, answer = Rejected (AxiosError m None) ->
        result_of call w =
        Threw (ConfluenceError ("Failed to remove label: " ++ m) UNKNOWN)).
Proof.
  intros call answer. subst call answer.
  split; [apply removeConfluenceLabel_requests|].
  unfold result_of, run, Legacy.removeConfluenceLabel, try_catch.
  rewrite send_bind. cbn [sent initial ticks app]. fold (remove_request pageId label).
  repeat apply conj.
  - intros data ->. reflexivity.
  - intros m r -> Hs. cbn [response_status].
    destruct (Z.eqb_spec (status r) 404); [contradiction|reflexivity].
  - intros m ->. reflexivity.
Qed.

(** X10 on a 500 whose message mentions the label. *)
Lemma removeConfluenceLabel_outcomes_witness :
  result_of (Legacy.removeConfluenceLabel "42" "draft")
    (rejecting 500 "Could not remove label draft") =
  Threw (ConfluenceError "Failed to remove label: Request failed" UNKNOWN).
Proof.
  apply (proj1 (proj2 (proj2 (removeConfluenceLabel_outcomes
                                (rejecting 500 "Could not remove label draft")
                                "42" "draft")))
           "Request failed"
           (mkResponse 500 "Error"
              (JS.Obj [("message", JS.Str "Could not remove label draft")]))
           eq_refl).
  discriminate.
Defined.

(** ** Methods without a handler *)

Lemma getConfluencePages_send spaceKey limit start title :
  Legacy.getConfluencePages spaceKey limit start title =
  bind (send (pages_request spaceKey limit start title))
    (fun data =>
       bind (prop data "results") (fun results =>
       bind (as_array results) (fun items =>
       bind (mapM (Legacy.toPage true) items) (fun pages =>
       bind (prop data "_links") (fun links =>
       bind (prop data "size") (fun size =>
       ret (JS.Obj [("results", JS.Arr pages); ("_links", links); ("size", size)]))))))).
Proof. reflexivity. Qed.

(** X11: the listings of spaces and of labels and the lookup of a
    space hand the fields of the answer over as they are (for the two
    listings [results], [_links] and [size], with the defaults
    [limit = 25] and [start = 0] in the request for spaces); these three
    methods and the listing of pages have no handler: a rejection of
    their request, a 404 for an unknown space included, is thrown
    unchanged, and a listing of pages whose [results] is not an array
    ends in a [TypeError]. *)
Theorem unhandled_listings w :
  (forall limit start data,
     transport w [] (spaces_request limit start) = Resolved data ->
     JS.nullish data = false ->
     result_of (Legacy.getConfluenceSpaces limit start) w =
     Returned (JS.Obj [("results", JS.opt_member data "results");
                       ("_links", JS.opt_member data "_links");
                       ("size", JS.opt_member data "size")]))
  /\ (forall pageId data,
        transport w [] (labels_request pageId) = Resolved data ->
        JS.nullish data = false ->
        result_of (Legacy.getConfluenceLabels pageId) w =
        Returned (JS.Obj [("results", JS.opt_member data "results");
                          ("_links", JS.opt_member data "_links");
                          ("size", JS.opt_member data "size")]))
  /\ (forall spaceKey data,
        transport w [] (space_request spaceKey) = Resolved data ->
        JS.nullish data = false ->
        result_of (Legacy.getConfluenceSpace spaceKey) w =
        Returned (JS.Obj [("id", JS.opt_member data "id");
                          ("key", JS.opt_member data "key");
                          ("name", JS.opt_member data "name");
                          ("type", JS.opt_member data "type");
                          ("status", JS.opt_member data "status");
                          ("_links", JS.opt_member data "_links")]))
  /\ (forall error,
        (forall limit start,
           transport w [] (spaces_request limit start) = Rejected error ->
           result_of (Legacy.getConfluenceSpaces limit start) w = Threw error)
        /\ (forall pageId,
              transport w [] (labels_request pageId) = Rejected error ->
              result_of (Legacy.getConfluenceLabels pageId) w = Threw error)
        /\ (forall spaceKey,
              transport w [] (space_request spaceKey) = Rejected error ->
              result_of (Legacy.getConfluenceSpace spaceKey) w = Threw error)
        /\ (forall spaceKey limit start title,
              transport w [] (pages_request spaceKey limit start title) =
              Rejected error ->
              result_of (Legacy.getConfluencePages spaceKey limit start title) w =
              Threw error))
  /\ (forall spaceKey limit start title data results,
        transport w [] (pages_request spaceKey limit start title) = Resolved data ->
        JS.member data "results" = Some results ->
        (forall items, results <> JS.Arr items) ->
        result_of (Legacy.getConfluencePages spaceKey limit start title) w =
        Threw TypeError).
Proof.
  repeat apply conj.
  - intros limit start data Hw Hdata.
    unfold result_of, run, Legacy.getConfluenceSpaces.
    rewrite send_bind. cbn [sent initial ticks app]. fold (spaces_request limit start).
    rewrite Hw. rewrite !(prop_of_object data) by exact Hdata. reflexivity.
  - intros pageId data Hw Hdata.
    unfold result_of, run, Legacy.getConfluenceLabels.
    rewrite send_bind. cbn [sent initial ticks app]. fold (labels_request pageId).
    rewrite Hw. rewrite !(prop_of_object data) by exact Hdata. reflexivity.
  - intros spaceKey data Hw Hdata.
    unfold result_of, run, Legacy.getConfluenceSpace.
    rewrite send_bind. cbn [sent initial ticks app]. fold (space_request spaceKey).
    rewrite Hw. rewrite !(prop_of_object data) by exact Hdata. reflexivity.
  - intros error. repeat apply conj.
    + intros limit start Hw.
      unfold result_of, run, Legacy.getConfluenceSpaces.
      rewrite send_bind. cbn [sent initial ticks app]. fold (spaces_request limit start).
      now rewrite Hw.
    + intros pageId Hw.
      unfold result_of, run, Legacy.getConfluenceLabels.
      rewrite send_bind. cbn [sent initial ticks app]. fold (labels_request pageId).
      now rewrite Hw.
    + intros spaceKey Hw.
      unfold result_of, run, Legacy.getConfluenceSpace.
      rewrite send_bind. cbn [sent initial ticks app]. fold (space_request spaceKey).
      now rewrite Hw.
    + intros spaceKey limit start title Hw.
      unfold result_of, run. rewrite getConfluencePages_send, send_bind.
      cbn [sent initial]. now rewrite Hw.
  - intros spaceKey limit start title data results Hw Hresults Hshape.
    unfold result_of, run. rewrite getConfluencePages_send, send_bind.
    cbn [sent initial]. rewrite Hw. unfold bind at 1, prop at 1.
    rewrite Hresults. cbn [ret].
    destruct results; try reflexivity. now elim (Hshape items).
Qed.

(** X11 on an unknown space. *)
Lemma unhandled_listings_witness :
  exists m r,
    result_of (Legacy.getConfluenceSpace "NOPE") (rejecting 404 "No space found") =
    Threw (AxiosError m (Some r))
    /\ status r = 404.
Proof.
  destruct (unhandled_listings (rejecting 404 "No space found"))
    as [_ [_ [_ [Hrejected _]]]].
  destruct (Hrejected
              (AxiosError "Request failed"
                 (Some (mkResponse 404 "Error"
                          (JS.Obj [("message", JS.Str "No space found")])))))
    as [_ [_ [Hspace _]]].
  do 2 eexists. split; [exact (Hspace "NOPE" eq_refl)|reflexivity].
Defined.

(** ** The queries the client builds pass its own search test *)

Lemma search_cql_of_typed query :
  Text.occurs_in "type =" query -> Legacy.search_cql query = query.
Proof.
  intros H. apply TextFacts.includes_occurs in H.
  unfold Legacy.search_cql. now rewrite H.
Qed.

(** X12: the structured queries that [getConfluencePages] and
    [searchPageByName] build contain the type filter that
    [searchConfluenceContent] looks for, whatever the space key, the
    title and the optional filter are: handed to the content search
    they are transmitted verbatim, never wrapped as free text. *)
Theorem built_queries_pass_search spaceKey title filter scope :
  Legacy.search_cql (Legacy.pages_cql spaceKey filter) = Legacy.pages_cql spaceKey filter
  /\ Legacy.search_cql (Legacy.name_cql title scope) = Legacy.name_cql title scope.
Proof.
  split; apply search_cql_of_typed.
  - unfold Legacy.pages_cql. destruct (given filter) as [t|]; cbn [Text.join app].
    + exists (("space = " ++ Text.quoted spaceKey) ++ " AND "),
             (" " ++ Text.quoted "page" ++ " AND " ++ "title ~ " ++ Text.quoted t).
      rewrite !TextFacts.append_assoc. reflexivity.
    + exists (("space = " ++ Text.quoted spaceKey) ++ " AND "),
             (" " ++ Text.quoted "page").
      rewrite !TextFacts.append_assoc. reflexivity.
  - unfold Legacy.name_cql. destruct (given scope) as [k|]; cbn [Text.join app].
    + exists (("title ~ " ++ Text.quoted title) ++ " AND "),
             (" " ++ Text.quoted "page" ++ " AND " ++ "space = " ++ Text.quoted k).
      rewrite !TextFacts.append_assoc. reflexivity.
    + exists (("title ~ " ++ Text.quoted title) ++ " AND "),
             (" " ++ Text.quoted "page").
      rewrite !TextFacts.append_assoc. reflexivity.
Qed.

(** ** The shape of the returned page records *)





(* ================================================================== *)
(** * Further properties of the typed client *)
(* ================================================================== *)

Lemma relays_send request w : relays (send request) request (fun data => data) w.
Proof.
  unfold relays, requests_of, result_of, run, send. cbn [sent initial ticks app].
  destruct (transport w [] request); split; reflexivity.
Qed.

(** X14: the typed client has no error handling of its own: each of
    its eleven methods sends its one request and nothing else, returns
    the data of the answer unchanged ([removeLabel] returns nothing),
    and, when the transport rejects that request, throws the very
    error of the rejection, so no [ConfluenceError] and no [TypeError]
    originates in this client. *)
Theorem typed_client_transparent w :
  (forall limit start,
     relays (Typed.getSpaces limit start)
       (mkRequest GET "/spaces"
          [("limit", JS.Num (default_to 25 limit));
           ("start", JS.Num (default_to 0 start))] JS.Undefined)
       (fun data => data) w)
  /\ (forall spaceId,
        relays (Typed.getSpace spaceId)
          (mkRequest GET ("/spaces/" ++ spaceId) [] JS.Undefined)
          (fun data => data) w)
  /\ (forall spaceId limit start,
        relays (Typed.getPages spaceId limit start)
          (mkRequest GET "/pages"
             [("spaceId", JS.Str spaceId);
              ("limit", JS.Num (default_to 25 limit));
              ("start", JS.Num (default_to 0 start));
              ("status", JS.Str "current")] JS.Undefined)
          (fun data => data) w)
  /\ (forall pageId,
        relays (Typed.getPage pageId)
          (mkRequest GET ("/pages/" ++ pageId) [] JS.Undefined)
          (fun data => data) w)
  /\ (forall pageId,
        relays (Typed.getPageContent pageId)
          (mkRequest GET ("/pages/" ++ pageId ++ "/body")
             [("body_format", JS.Str "storage")] JS.Undefined)
          (fun data => data) w)
  /\ (forall spaceId title content parentId,
        relays (Typed.createPage spaceId title content parentId)
          (typed_create_request spaceId title content parentId)
          (fun data => data) w)
  /\ (forall pageId title content version,
        relays (Typed.updatePage pageId title content version)
          (typed_write_request pageId title content version (clock w 0))
          (fun data => data) w)
  /\ (forall query limit start,
        relays (Typed.searchContent query limit start)
          (mkRequest GET "/search"
             [("cql", JS.Str query);
              ("limit", JS.Num (default_to 25 limit));
              ("start", JS.Num (default_to 0 start))] JS.Undefined)
          (fun data => data) w)
  /\ (forall pageId,
        relays (Typed.getLabels pageId)
          (mkRequest GET ("/pages/" ++ pageId ++ "/labels") [] JS.Undefined)
          (fun data => data) w)
  /\ (forall pageId label,
        relays (Typed.addLabel pageId label)
          (mkRequest POST ("/pages/" ++ pageId ++ "/labels") []
             (JS.Obj [("name", JS.Str label)]))
          (fun data => data) w)
  /\ (forall pageId label,
        relays (Typed.removeLabel pageId label)
          (mkRequest DELETE ("/pages/" ++ pageId ++ "/labels/" ++ label) []
             JS.Undefined)
          (fun _ => tt) w).
Proof.
  repeat apply conj; intros; try apply relays_send.
  - unfold relays, requests_of, result_of, run, Typed.updatePage, bind, now, send.
    cbn [sent initial ticks app].
    fold (typed_write_request pageId title content version (clock w 0)).
    destruct (transport w [] _); split; reflexivity.
  - unfold relays, requests_of, result_of, run, Typed.removeLabel, bind, send, ret.
    cbn [sent initial ticks app].
    destruct (transport w [] _); split; reflexivity.
Qed.

(** X14 on a page that does not exist: the 404 surfaces as it came,
    after the one request. *)
Lemma typed_client_transparent_witness :
  requests_of (Typed.getPage "42") (rejecting 404 "Not found") =
  [mkRequest GET "/pages/42" [] JS.Undefined]
  /\ result_of (Typed.getPage "42") (rejecting 404 "Not found") =
     Threw (AxiosError "Request failed"
              (Some (mkResponse 404 "Error"
                       (JS.Obj [("message", JS.Str "Not found")])))).
Proof.
  exact (proj1 (proj2 (proj2 (proj2 (typed_client_transparent
                                       (rejecting 404 "Not found")))))
           "42").
Defined.

(* ================================================================== *)
(** * Properties of the server *)
(* ================================================================== *)

(** ** The environment check *)

Lemma given_is_set env name :
  (exists text, given (env name) = Some text) <-> is_set env name.
Proof.
  unfold is_set, given. destruct (env name) as [text|].
  - destruct (String.eqb_spec text EmptyString) as [->|Hne].
    + split; [intros [t H]; discriminate H|].
      intros [t [H Ht]]. injection H as <-. contradiction.
    + split; [intros _; now exists text|intros _; now exists text].
  - split; [intros [t H]; discriminate H|intros [t [H _]]; discriminate H].
Qed.

Lemma validateEnv_passes env vars :
  Server.validateEnv env vars = Returned tt <-> Forall (is_set env) vars.
Proof.
  induction vars as [|name rest IH]; cbn [Server.validateEnv].
  - split; [constructor|reflexivity].
  - destruct (given (env name)) as [text|] eqn:E.
    + rewrite IH. split.
      * intros H. constructor; [|exact H].
        apply given_is_set. now exists text.
      * intros H. now inversion H.
    + split; [discriminate|].
      intros H. inversion H as [|? ? Hset _]; subst.
      apply given_is_set in Hset. destruct Hset as [t Ht]. congruence.
Qed.

Lemma validateEnv_first_missing env vars error :
  Server.validateEnv env vars = Threw error ->
  exists before name after,
    vars = (before ++ name :: after)%list
    /\ Forall (is_set env) before
    /\ ~ is_set env name
    /\ error = Error ("Missing required environment variable: " ++ name).
Proof.
  induction vars as [|name rest IH]; cbn [Server.validateEnv]; [discriminate|].
  destruct (given (env name)) as [text|] eqn:E.
  - intros H. destruct (IH H) as [before [missing [after [-> [Hset [Hmiss ->]]]]]].
    exists (name :: before), missing, after.
    split; [reflexivity|]. split; [|now split].
    constructor; [|exact Hset]. apply given_is_set. now exists text.
  - intros H. injection H as <-. exists [], name, rest.
    split; [reflexivity|]. split; [constructor|]. split; [|reflexivity].
    intros Hset. apply given_is_set in Hset. destruct Hset as [t Ht]. congruence.
Qed.

(** X15: the environment check at start-up passes exactly when
    [CONFLUENCE_DOMAIN], [CONFLUENCE_EMAIL] and [CONFLUENCE_API_TOKEN]
    are all set to non-empty strings (an empty value counts as
    missing); otherwise it throws the error that names the first of
    the three, in this order, that is missing. *)
Theorem validateEnv_required env :
  (Server.validateEnv env Server.requiredEnvVars = Returned tt <->
   is_set env "CONFLUENCE_DOMAIN" /\ is_set env "CONFLUENCE_EMAIL"
   /\ is_set env "CONFLUENCE_API_TOKEN")
  /\ (~ is_set env "CONFLUENCE_DOMAIN" ->
        Server.validateEnv env Server.requiredEnvVars =
        Threw (Error "Missing required environment variable: CONFLUENCE_DOMAIN"))
  /\ (is_set env "CONFLUENCE_DOMAIN" -> ~ is_set env "CONFLUENCE_EMAIL" ->
        Server.validateEnv env Server.requiredEnvVars =
        Threw (Error "Missing required environment variable: CONFLUENCE_EMAIL"))
  /\ (is_set env "CONFLUENCE_DOMAIN" -> is_set env "CONFLUENCE_EMAIL" ->
        ~ is_set env "CONFLUENCE_API_TOKEN" ->
        Server.validateEnv env Server.requiredEnvVars =
        Threw (Error "Missing required environment variable: CONFLUENCE_API_TOKEN")).
Proof.
  assert (forall name, is_set env name -> exists text, given (env name) = Some text)
    as Hset by (intros name; apply given_is_set).
  assert (forall name, ~ is_set env name -> given (env name) = None) as Hmiss.
  { intros name H. destruct (given (env name)) as [text|] eqn:E; [|reflexivity].
    elim H. apply given_is_set. now exists text. }
  split; [|split; [|split]].
  - rewrite validateEnv_passes. unfold Server.requiredEnvVars. split.
    + intros H. inversion H as [|? ? H1 H']; subst.
      inversion H' as [|? ? H2 H'']; subst. inversion H'' as [|? ? H3 _]; subst.
      now repeat split.
    + intros [H1 [H2 H3]]. repeat constructor; assumption.
  - intros H. cbn [Server.validateEnv Server.requiredEnvVars].
    now rewrite (Hmiss _ H).
  - intros H1 H2. cbn [Server.validateEnv Server.requiredEnvVars].
    destruct (Hset _ H1) as [t1 ->]. now rewrite (Hmiss _ H2).
  - intros H1 H2 H3. cbn [Server.validateEnv Server.requiredEnvVars].
    destruct (Hset _ H1) as [t1 ->]. destruct (Hset _ H2) as [t2 ->].
    now rewrite (Hmiss _ H3).
Qed.

(** X15 on a complete environment. *)
Lemma validateEnv_required_witness :
  Server.validateEnv full_env Server.requiredEnvVars = Returned tt.
Proof.
  apply (proj1 (validateEnv_required full_env)).
  repeat split; eexists; (split; [reflexivity|discriminate]).
Defined.

(** ** The tool dispatcher *)

Section DispatcherFacts.

Variable handlers : Server.Handlers.
Variable confluenceClient : Legacy.ConfluenceClient.

(** X16: whatever a tool call fails with is a protocol error: the
    dispatcher lets the protocol errors of the guards and of the
    handlers through unchanged and wraps every other failure of a
    handler, an [Error] or any thrown value, into the [InternalError]
    that quotes its message. *)
Theorem callTool_protocol_errors name args :
  (forall error, Server.callTool handlers confluenceClient name args = Server.Failed error ->
     exists code message, error = Server.McpError code message)
  /\ (forall code message,
        Server.dispatch handlers confluenceClient name args = Server.Failed (Server.McpError code message) ->
        Server.callTool handlers confluenceClient name args = Server.Failed (Server.McpError code message))
  /\ (forall message,
        Server.dispatch handlers confluenceClient name args = Server.Failed (Server.OtherError message) ->
        Server.callTool handlers confluenceClient name args =
        Server.Failed (Server.McpError Server.InternalError
                         ("Internal server error: " ++ message)))
  /\ (forall thrown,
        Server.dispatch handlers confluenceClient name args = Server.Failed (Server.NotAnError thrown) ->
        Server.callTool handlers confluenceClient name args =
        Server.Failed (Server.McpError Server.InternalError
                         ("Internal server error: " ++ JS.to_string thrown)))
  /\ (forall result,
        Server.dispatch handlers confluenceClient name args = Server.Fulfilled result ->
        Server.callTool handlers confluenceClient name args = Server.Fulfilled result).
Proof.
  unfold Server.callTool. repeat apply conj.
  - intros error.
    destruct (Server.dispatch handlers confluenceClient name args) as [result|[code m|m|v]]; intros H;
      try discriminate H; injection H as <-; eauto.
  - now intros code message ->.
  - now intros message ->.
  - now intros thrown ->.
  - now intros result ->.
Qed.

(** X17: a name that is not one of the eleven tools fails with
    [MethodNotFound] and the message [Unknown tool: name], whatever the
    arguments and the handlers are: no handler runs. *)
Theorem callTool_unknown_tool name args :
  ~ In name Server.tool_names ->
  Server.callTool handlers confluenceClient name args =
  Server.Failed (Server.McpError Server.MethodNotFound ("Unknown tool: " ++ name)).
Proof.
  intros Hname. unfold Server.callTool, Server.dispatch.
  repeat match goal with
         | |- context [String.eqb name ?tool] =>
             destruct (String.eqb_spec name tool) as [->|_];
             [exfalso; apply Hname; cbn; tauto|]
         end.
  reflexivity.
Qed.

(** X18: every tool with required arguments rejects a call in which
    one of them is missing or falsy (absent, [null], the empty string,
    zero) with [InvalidParams] and the message of its guard, before
    any handler runs; [update_confluence_page] also rejects a call
    without [version]. *)
Theorem callTool_required_arguments name args :
  (forall k, In k (fst (Server.required_arguments name)) ->
     JS.truthy (Server.argument args k) = false ->
     Server.callTool handlers confluenceClient name args =
     Server.Failed (Server.McpError Server.InvalidParams
                      (snd (Server.required_arguments name))))
  /\ (name = "update_confluence_page" ->
        Server.argument args "version" = JS.Undefined ->
        Server.callTool handlers confluenceClient name args =
        Server.Failed (Server.McpError Server.InvalidParams
                         "pageId, title, content, and version are required")).
Proof.
  split.
  - intros k Hk Hfalsy.
    unfold Server.callTool, Server.dispatch, Server.required_arguments in *.
    repeat match goal with
           | |- context [String.eqb name ?tool] =>
               destruct (String.eqb_spec name tool) as [->|_]
           end;
      cbn [fst snd In] in Hk; cbn [snd Server.all_truthy forallb];
      try contradiction;
      repeat match type of Hk with
             | _ \/ _ => destruct Hk as [<-|Hk]
             | False => contradiction
             | _ = _ => subst k
             end;
      rewrite ?Hfalsy, ?andb_false_r; cbn [negb andb orb]; reflexivity.
  - intros -> Hversion.
    unfold Server.callTool, Server.dispatch. cbn [String.eqb Ascii.eqb Bool.eqb].
    rewrite Hversion. cbn [Server.is_undefined]. rewrite orb_true_r. reflexivity.
Qed.

(** X19: the dispatcher reads only the arguments it declares
    ([limit], [start], [spaceId], [pageId], [title], [content],
    [parentId], [version], [query], [label]): two argument objects that
    agree on these give the same outcome for every tool, so no other
    field of a request reaches a handler. *)
Theorem callTool_declared_arguments name args args' :
  same_declared args args' ->
  Server.callTool handlers confluenceClient name args = Server.callTool handlers confluenceClient name args'.
Proof.
  intros Hsame.
  assert (forall k, In k declared_arguments ->
            Server.argument args k = Server.argument args' k) as H by exact Hsame.
  unfold Server.callTool, Server.dispatch, Server.pick, Server.all_truthy.
  cbn [map forallb].
  rewrite (H "limit"), (H "start"), (H "spaceId"), (H "pageId"), (H "title"),
    (H "content"), (H "parentId"), (H "version"), (H "query"), (H "label")
    by (cbn; tauto).
  reflexivity.
Qed.

(** X20: [update_confluence_page] tests its [version] against
    [undefined] only: with a page id, a title and a content, any
    [version] that is present, zero and [null] included, passes the
    guard, and the handler receives exactly the four declared
    arguments. *)
Theorem callTool_update_version args :
  JS.truthy (Server.argument args "pageId") = true ->
  JS.truthy (Server.argument args "title") = true ->
  JS.truthy (Server.argument args "content") = true ->
  Server.argument args "version" <> JS.Undefined ->
  Server.dispatch handlers confluenceClient "update_confluence_page" args =
  Server.handleUpdateConfluencePage handlers confluenceClient
    (JS.Obj [("pageId", Server.argument args "pageId");
             ("title", Server.argument args "title");
             ("content", Server.argument args "content");
             ("version", Server.argument args "version")]).
Proof.
  intros Hid Htitle Hcontent Hversion.
  unfold Server.dispatch. cbn [String.eqb Ascii.eqb Bool.eqb].
  unfold Server.all_truthy. cbn [forallb].
  rewrite Hid, Htitle, Hcontent. cbn [andb negb orb].
  unfold Server.pick. cbn [map].
  destruct (Server.argument args "version") eqn:E; try reflexivity.
  now elim Hversion.
Qed.

End DispatcherFacts.

(** X16 on a handler that throws a domain error. *)
Lemma callTool_protocol_errors_witness :
  Server.callTool (Server.failing "Page not found") example_client
    "get_confluence_page" (JS.Obj [("pageId", JS.Str "42")]) =
  Server.Failed (Server.McpError Server.InternalError
                   "Internal server error: Page not found").
Proof.
  exact (proj1 (proj2 (proj2 (callTool_protocol_errors
                                (Server.failing "Page not found") example_client
                                "get_confluence_page"
                                (JS.Obj [("pageId", JS.Str "42")]))))
           "Page not found" eq_refl).
Defined.

(** X17 on a tool the server does not have. *)
Lemma callTool_unknown_tool_witness :
  Server.callTool Server.echoing example_client "delete_confluence_page"
    (JS.Obj [("pageId", JS.Str "42")]) =
  Server.Failed (Server.McpError Server.MethodNotFound
                   "Unknown tool: delete_confluence_page").
Proof.
  apply (callTool_unknown_tool Server.echoing example_client
           "delete_confluence_page" (JS.Obj [("pageId", JS.Str "42")])).
  cbn. intuition discriminate.
Defined.

(** X18 on a label call without its label. *)
Lemma callTool_required_arguments_witness :
  Server.callTool Server.echoing example_client "add_confluence_label"
    (JS.Obj [("pageId", JS.Str "42")]) =
  Server.Failed (Server.McpError Server.InvalidParams "pageId and label are required").
Proof.
  apply (proj1 (callTool_required_arguments Server.echoing example_client
                  "add_confluence_label" (JS.Obj [("pageId", JS.Str "42")]))
           "label").
  - cbn. tauto.
  - reflexivity.
Defined.

(** X19 on a listing that is given a title filter the tool does not
    declare for it and a cursor nobody declares. *)
Lemma callTool_declared_arguments_witness :
  Server.callTool Server.echoing example_client "list_confluence_pages"
    (JS.Obj [("spaceId", JS.Str "DOC"); ("cursor", JS.Str "abc")]) =
  Server.callTool Server.echoing example_client "list_confluence_pages"
    (JS.Obj [("spaceId", JS.Str "DOC")]).
Proof.
  apply (callTool_declared_arguments Server.echoing example_client
           "list_confluence_pages"
           (JS.Obj [("spaceId", JS.Str "DOC"); ("cursor", JS.Str "abc")])
           (JS.Obj [("spaceId", JS.Str "DOC")])).
  intros k Hk. cbn in Hk.
  repeat (destruct Hk as [<-|Hk]; [reflexivity|]). contradiction.
Defined.

(** X20 on version zero. *)
Lemma callTool_update_version_witness :
  Server.dispatch Server.echoing example_client "update_confluence_page"
    (JS.Obj [("pageId", JS.Str "42"); ("title", JS.Str "Roadmap");
             ("content", JS.Str "<p>Q1</p>"); ("version", JS.Num 0)]) =
  Server.Fulfilled
    (JS.Obj [("pageId", JS.Str "42"); ("title", JS.Str "Roadmap");
             ("content", JS.Str "<p>Q1</p>"); ("version", JS.Num 0)]).
Proof.
  apply (callTool_update_version Server.echoing example_client
           (JS.Obj [("pageId", JS.Str "42"); ("title", JS.Str "Roadmap");
                    ("content", JS.Str "<p>Q1</p>"); ("version", JS.Num 0)]));
    try reflexivity.
  discriminate.
Defined.

(* ================================================================== *)
(** * The two clients side by side, and the search summaries *)
(* ================================================================== *)

Lemma typed_updatePage_requests w pageId title content version :
  requests_of (Typed.updatePage pageId title content version) w =
  [typed_write_request pageId title content version (clock w 0)].
Proof.
  unfold requests_of, run, Typed.updatePage, bind, now, send.
  cbn [sent initial ticks app]. fold (typed_write_request pageId title content version (clock w 0)).
  destruct (transport w [] _); reflexivity.
Qed.

(** X21: for the same arguments and clock the two clients submit the
    same [version] object, with the same dated message and the same
    number, which is the expected version plus one as long as that sum
    is at most 2^53 in magnitude (beyond, the sum is rounded as a
    double); but the typed client writes at once: its [updatePage]
    sends the PUT as its only request, where the legacy client sends
    its re-read first. *)
Theorem update_versions_agree w pageId title content version currentPage :
  transport w [] (reread_request pageId) = Resolved currentPage ->
  exists typed_write legacy_write,
    requests_of (Typed.updatePage pageId title content version) w = [typed_write]
    /\ requests_of (Legacy.updateConfluencePage pageId title content version) w =
       [reread_request pageId; legacy_write]
    /\ method typed_write = PUT /\ method legacy_write = PUT
    /\ JS.opt_member (data typed_write) "version" =
       JS.opt_member (data legacy_write) "version"
    /\ JS.opt_member (JS.opt_member (data typed_write) "version") "number" =
       JS.Num (JS.increment version)
    /\ (Z.abs (version + 1) <= 2 ^ 53 ->
        JS.opt_member (JS.opt_member (data typed_write) "version") "number" =
        JS.Num (version + 1)
        /\ JS.opt_member (JS.opt_member (data legacy_write) "version") "number" =
           JS.Num (version + 1))
    /\ JS.opt_member (data typed_write) "id" = JS.Str pageId
    /\ JS.opt_member (data legacy_write) "id" = JS.Undefined.
Proof.
  intros Hread.
  exists (typed_write_request pageId title content version (clock w 0)),
         (write_request pageId title content version (clock w 0)).
  split; [apply typed_updatePage_requests|].
  split; [rewrite updateConfluencePage_requests; now rewrite Hread|].
  repeat split;
    change (JS.Num (JS.increment version) = JS.Num (version + 1));
    now rewrite (increment_exact version H).
Qed.

(** X21 on the stored page. *)
Lemma update_versions_agree_witness :
  length (requests_of (Typed.updatePage "42" "Roadmap" "<p>Q1</p>" 3) storing) = 1%nat
  /\ length (requests_of (Legacy.updateConfluencePage "42" "Roadmap" "<p>Q1</p>" 3)
               storing) = 2%nat.
Proof.
  destruct (update_versions_agree storing "42" "Roadmap" "<p>Q1</p>" 3 stored_page
              eq_refl) as [typed_write [legacy_write [Htyped [Hlegacy _]]]].
  rewrite Htyped, Hlegacy. split; reflexivity.
Defined.

Section SearchSummaries.

Variable this : Legacy.ConfluenceClient.

Lemma toSearchEntry_summary_of row w s :
  JS.nullish row = false ->
  exists entry,
    Legacy.toSearchEntry this row w s = (s, Returned entry)
    /\ summary_of row entry.
Proof.
  intros Hrow. unfold Legacy.toSearchEntry.
  rewrite !(prop_of_object row) by exact Hrow.
  cbv beta iota delta [bind ret].
  eexists. split; [reflexivity|]. repeat split.
Qed.

Lemma mapM_toSearchEntry_summary w rows : forall s,
  all_present rows ->
  exists entries,
    mapM (Legacy.toSearchEntry this) rows w s = (s, Returned entries)
    /\ Forall2 summary_of rows entries.
Proof.
  induction rows as [|row rest IH]; intros s Hall.
  - exists []. split; [reflexivity|constructor].
  - inversion Hall as [|? ? Hrow Hrest]; subst.
    destruct (toSearchEntry_summary_of row w s Hrow) as [entry [Hrun Hof]].
    destruct (IH s Hrest) as [entries [Hruns Hofs]].
    exists (entry :: entries).
    cbn [mapM]. unfold bind at 1. rewrite Hrun.
    unfold bind at 1. rewrite Hruns. cbn [ret].
    split; [reflexivity|now constructor].
Qed.

(** X22: each entry that [searchConfluenceContent] returns holds
    exactly [content], [url], [lastModified] and [excerpt]; its
    [content] copies the [id], [type], [status], [title] and [_links]
    of the upstream row and takes [spaceId] from the row's space, and
    [lastModified] is the [when] of the row's version ([undefined]
    where the row has none); a row that is [null] makes the whole
    search throw a [TypeError]. *)
Theorem searchConfluenceContent_summaries w query limit start data rows :
  transport w [] (search_request query limit start) = Resolved data ->
  JS.member data "results" = Some (JS.Arr rows) ->
  (all_present rows ->
   exists entries links,
     result_of (Legacy.searchConfluenceContent this query limit start) w =
     Returned (JS.Obj [("results", JS.Arr entries); ("_links", links)])
     /\ Forall2 summary_of rows entries)
  /\ (forall rest, rows = JS.Null :: rest ->
        result_of (Legacy.searchConfluenceContent this query limit start) w =
        Threw TypeError).
Proof.
  intros Hw Hresults.
  unfold result_of, run, Legacy.searchConfluenceContent, try_catch.
  rewrite send_bind. cbn [sent initial ticks app].
  fold (search_request query limit start). rewrite Hw.
  pose proof (member_defined data "results" _ Hresults) as Hdata.
  rewrite !(prop_of_object data) by exact Hdata.
  assert (JS.opt_member data "results" = JS.Arr rows) as Hrows
    by (unfold JS.opt_member; now rewrite Hresults).
  rewrite !Hrows.
  split.
  - intros Hall.
    destruct (mapM_toSearchEntry_summary w rows
                (mkSt [search_request query limit start] 0) Hall)
      as [entries [Hrun Hof]].
    exists entries. eexists.
    cbv beta iota delta [bind ret as_array JS.or JS.truthy]. rewrite Hrun.
    cbn [snd]. split; [reflexivity|exact Hof].
  - intros rest ->. reflexivity.
Qed.

End SearchSummaries.

(** X22 on one row. *)
Lemma searchConfluenceContent_summaries_witness :
  exists entry links,
    result_of (Legacy.searchConfluenceContent example_client "budget report" None None)
      (answering (JS.Obj [("results", JS.Arr [linked_row])])) =
    Returned (JS.Obj [("results", JS.Arr [entry]); ("_links", links)])
    /\ JS.opt_member (JS.opt_member entry "content") "title" = JS.Str "Budget"
    /\ JS.opt_member entry "lastModified" = JS.Undefined.
Proof.
  destruct (proj1 (searchConfluenceContent_summaries example_client
                     (answering (JS.Obj [("results", JS.Arr [linked_row])]))
                     "budget report" None None
                     (JS.Obj [("results", JS.Arr [linked_row])]) [linked_row]
                     eq_refl eq_refl))
    as [entries [links [Hres Hof]]].
  - repeat constructor.
  - inversion Hof as [|? entry ? rest Hentry Hrest]; subst.
    inversion Hrest; subst.
    exists entry, links. split; [exact Hres|].
    destruct Hentry as [_ [_ [_ [_ [_ [Htitle [_ [_ Hwhen]]]]]]]].
    split; [exact Htitle|exact Hwhen].
Defined.
